(** * Product-Grimoire: the per-product enrichment pipeline

    A shallow embedding of [Product-Grimoire.py].  Python strings are
    sequences of Unicode code points; the external services (search API,
    HTTP, the HTML parser, the file system, the generative model) are
    taken as parameters of the development and every call to one of them
    is recorded in a trace, so that statements such as "no download is
    attempted" can be read off the final state. *)

From Stdlib Require Import List Bool Arith ZArith NArith Lia String Ascii.
From Stdlib Require Import DecimalString.
Import ListNotations.

Set Implicit Arguments.

(** ** Python strings *)

Module PyStr.

(** A [str] is a list of code points. *)
Definition str := list N.

(** Literals are written as in the source file (which is UTF-8 encoded)
    and decoded to code points. *)
Fixpoint utf8_decode (bs : list N) : str :=
  match bs with
  | [] => []
  | b :: rest =>
      if (b <? 128)%N then b :: utf8_decode rest
      else if (b <? 224)%N then
        match rest with
        | b2 :: r => ((b - 192) * 64 + (b2 - 128))%N :: utf8_decode r
        | _ => []
        end
      else if (b <? 240)%N then
        match rest with
        | b2 :: b3 :: r =>
            ((b - 224) * 4096 + (b2 - 128) * 64 + (b3 - 128))%N :: utf8_decode r
        | _ => []
        end
      else
        match rest with
        | b2 :: b3 :: b4 :: r =>
            ((b - 240) * 262144 + (b2 - 128) * 4096 + (b3 - 128) * 64 + (b4 - 128))%N
              :: utf8_decode r
        | _ => []
        end
  end.

Definition lit (s : string) : str :=
  utf8_decode (List.map N_of_ascii (list_ascii_of_string s)).

Definition eqb (a b : str) : bool :=
  if list_eq_dec N.eq_dec a b then true else false.

(** [t.startswith(m)] *)
Fixpoint startswith (m t : str) : bool :=
  match m, t with
  | [], _ => true
  | _ :: _, [] => false
  | a :: m', b :: t' => (a =? b)%N && startswith m' t'
  end.

(** [m in t] *)
Fixpoint contains (m t : str) : bool :=
  startswith m t ||
  match t with
  | [] => false
  | _ :: t' => contains m t'
  end.

(** Position of the first occurrence of [m] in [t], if any. *)
Fixpoint index_of (m t : str) : option nat :=
  if startswith m t then Some 0
  else match t with
       | [] => None
       | _ :: t' => option_map S (index_of m t')
       end.

(** [t.find(m)]: the lowest index, or -1. *)
Definition find (m t : str) : Z :=
  match index_of m t with
  | Some i => Z.of_nat i
  | None => (-1)%Z
  end.

(** [len(t)] *)
Definition len (t : str) : Z := Z.of_nat (List.length t).

(** Slice bounds as Python normalises them: a negative bound counts from
    the end, and the result is clamped to [0, len]. *)
Definition clamp (n : Z) (i : Z) : nat :=
  let j := if (i <? 0)%Z then (i + n)%Z else i in
  Z.to_nat (Z.max 0 (Z.min n j)).

(** [t[a:b]] *)
Definition slice (t : str) (a b : Z) : str :=
  let lo := clamp (len t) a in
  let hi := clamp (len t) b in
  firstn (hi - lo) (skipn lo t).

(** [t[a:]] *)
Definition slice_from (t : str) (a : Z) : str :=
  skipn (clamp (len t) a) t.

(** [c.isspace()]: the code points CPython treats as whitespace. *)
Definition isspace (c : N) : bool :=
  ((9 <=? c) && (c <=? 13) || (28 <=? c) && (c <=? 32)
   || (c =? 133) || (c =? 160) || (c =? 5760)
   || (8192 <=? c) && (c <=? 8202)
   || (c =? 8232) || (c =? 8233) || (c =? 8239) || (c =? 8287)
   || (c =? 12288))%N.

Fixpoint lstrip (t : str) : str :=
  match t with
  | [] => []
  | c :: t' => if isspace c then lstrip t' else t
  end.

Fixpoint rstrip (t : str) : str :=
  match t with
  | [] => []
  | c :: t' =>
      match rstrip t' with
      | [] => if isspace c then [] else [c]
      | r => c :: r
      end
  end.

(** The last code point of [m] exists and is not whitespace. *)
Fixpoint ends_nonspace (m : str) : bool :=
  match m with
  | [] => false
  | [z] => negb (isspace z)
  | _ :: m' => ends_nonspace m'
  end.

(** The first code point of [m] exists and is not whitespace. *)
Definition starts_nonspace (m : str) : bool :=
  match m with
  | [] => false
  | a :: _ => negb (isspace a)
  end.

(** [t.strip()] *)
Definition strip (t : str) : str := rstrip (lstrip t).

(** Truth value of an optional string: [None] and [""] are false. *)
Definition truthy (o : option str) : bool :=
  match o with
  | Some (_ :: _) => true
  | _ => false
  end.

(** [a or b] on optional strings. *)
Definition or_else (a b : option str) : option str :=
  if truthy a then a else b.

(** [str(n)] for a non-negative integer. *)
Definition of_nat (n : nat) : str :=
  lit (NilZero.string_of_uint (Nat.to_uint n)).

(** Lower-casing of one code point of the Latin-1 range (elsewhere the
    identity), where [str.lower] works code point by code point. *)
Definition lower_cp (c : N) : N :=
  if ((65 <=? c) && (c <=? 90)
      || (192 <=? c) && (c <=? 222) && negb (c =? 215))%N
  then (c + 32)%N else c.

End PyStr.

Import PyStr.


(** ** Exceptions and external data *)

(** The subclasses of [Exception] the code tells apart; every one carries
    the text [str(e)] gives.  [BaseException]s that are not [Exception]s
    (an operator interrupt) are not failures of an external call and are
    outside the model. *)
Inductive exn : Type :=
| HttpError (status : Z) (msg : str)
| RequestException (msg : str)
| OtherException (msg : str).

Definition exn_str (e : exn) : str :=
  match e with
  | HttpError _ m => m
  | RequestException m => m
  | OtherException m => m
  end.

Inductive result (A : Type) : Type :=
| Ok (a : A)
| Raise (e : exn).
Arguments Ok {A} a.
Arguments Raise {A} e.

(** One entry of [result['items']]; [link] is [None] when the key is
    missing. *)
Record Item := { link : option str }.

(** The dict the search API returns; [items] is [None] when the key is
    missing. *)
Record SearchResult := { items : option (list Item) }.

(** What [requests.get] returns. *)
Record Response := { status_code : Z; text : str }.

(** An element of the parsed page: its name, its class tokens and its
    other attributes. *)
Record Tag := {
  tag_name : str;
  tag_class : list str;
  tag_attrs : list (str * str)
}.

(** The parsed page, as the elements in document order. *)
Definition Soup := list Tag.

(** A number of the input table. *)
Inductive number (float : Type) : Type :=
| Int (z : Z)
| Float (f : float).
Arguments Int {float} z.
Arguments Float {float} f.

(** ** Trace of the calls to the outside world *)

Inductive Message : Type :=
| MsgSearchQuota
| MsgSearchApiError (e : exn)
| MsgSearchUnexpected (e : exn)
| MsgFinalAttempt
| MsgImageFound (image_url : str)
| MsgImageSearchError (e : exn)
| MsgGeminiQuota
| MsgGeminiError (e : exn)
| MsgProcessing (name : str)
| MsgNoImage.

Inductive Event : Type :=
| EvWrite (m : Message)
| EvCseList (q cx : str) (image : bool)
| EvGet (url : str) (stream : bool)
| EvSoup (markup : str)
| EvMakedirs (path : str)
| EvSaveFile (path : str)
| EvGenerate (model prompt : str)
| EvSleep (seconds : nat).

Definition is_image_search (ev : Event) : bool :=
  match ev with EvCseList _ _ true => true | _ => false end.

Definition is_page_search (ev : Event) : bool :=
  match ev with EvCseList _ _ false => true | _ => false end.

Definition is_get (ev : Event) : bool :=
  match ev with EvGet _ _ => true | _ => false end.

Definition is_parse (ev : Event) : bool :=
  match ev with EvSoup _ => true | _ => false end.

Definition is_file_write (ev : Event) : bool :=
  match ev with EvMakedirs _ | EvSaveFile _ => true | _ => false end.

Definition count (p : Event -> bool) (evs : list Event) : nat :=
  List.length (filter p evs).

(** ** The outside world

    Library functions and services the script calls.  A service call
    takes the state of the world and returns the new one; it either
    yields a value or raises. *)
Class Externals : Type := {
  World : Type;
  float : Type;
  zero_float : float;
  (** configuration constants the operator fills in *)
  CSE_ID : str;
  (** [s.lower()] *)
  lower : str -> str;
  (** [service.cse().list(q=q, cx=cx, num=1 [, searchType='image']).execute()] *)
  cse_execute : World -> str -> str -> bool -> result SearchResult * World;
  (** [requests.get(url, ..., timeout=15)] *)
  requests_get : World -> str -> bool -> result Response * World;
  (** [BeautifulSoup(markup, 'html.parser')] *)
  BeautifulSoup : str -> result Soup;
  (** [urljoin(base, url)] *)
  urljoin : str -> str -> result str;
  (** [urlparse(url).path] *)
  urlparse_path : str -> result str;
  (** [os.path.splitext(path)[1]] *)
  splitext_ext : str -> str;
  (** [os.path.join(a, b)] *)
  path_join : str -> str -> str;
  (** [os.makedirs(path, exist_ok=True)] *)
  makedirs : World -> str -> result unit * World;
  (** opening the file and writing every chunk of the response body *)
  save_body : World -> str -> Response -> result unit * World;
  (** [genai.GenerativeModel(model).generate_content(prompt).text] *)
  generate_content : World -> str -> str -> result str * World
}.

(** ** State and exceptions *)

Section Monad.
Context {ext : Externals}.

Record State := { world : World; trace : list Event }.

Definition M (A : Type) : Type := State -> result A * State.

Definition ret {A} (a : A) : M A := fun st => (Ok a, st).

Definition raise {A} (e : exn) : M A := fun st => (Raise e, st).

Definition bind {A B} (m : M A) (k : A -> M B) : M B :=
  fun st =>
    match m st with
    | (Ok a, st') => k a st'
    | (Raise e, st') => (Raise e, st')
    end.

(** [try: body  except ... as e: handler e] where the clauses together
    catch every [Exception]. *)
Definition try_except {A} (body : M A) (handler : exn -> M A) : M A :=
  fun st =>
    match body st with
    | (Ok a, st') => (Ok a, st')
    | (Raise e, st') => handler e st'
    end.

Definition lift {A} (r : result A) : M A := fun st => (r, st).

(** The state after [ev] is recorded. *)
Definition log (ev : Event) (st : State) : State :=
  {| world := world st; trace := trace st ++ [ev] |}.

Definition emit (ev : Event) : M unit := fun st => (Ok tt, log ev st).

(** A call to a service: recorded in the trace, then answered by the
    world. *)
Definition call {A} (ev : Event) (f : World -> result A * World) : M A :=
  fun st =>
    let (r, w) := f (world st) in
    (r, {| world := w; trace := trace st ++ [ev] |}).

(** From [st] to [st'] the trace grew by events none of which is a [p]. *)
Definition quiet (p : Event -> bool) (st st' : State) : Prop :=
  exists evs, trace st' = trace st ++ evs /\ count p evs = 0.

(** A computation none of whose events is a [p]. *)
Definition Quiet {A} (p : Event -> bool) (m : M A) : Prop :=
  forall st r st', m st = (r, st') -> quiet p st st'.

(** The events a search, a generation and the loop itself leave are
    none of them a [p]. *)
Definition offline (p : Event -> bool) : Prop :=
  (forall m, p (EvWrite m) = false) /\
  (forall q cx image, p (EvCseList q cx image) = false) /\
  (forall model text, p (EvGenerate model text) = false) /\
  (forall n, p (EvSleep n) = false).

Definition tqdm_write (m : Message) : M unit := emit (EvWrite m).

Definition sleep (seconds : nat) : M unit := emit (EvSleep seconds).

End Monad.

Notation "x <- m ;; k" := (bind m (fun x => k))
  (at level 61, m at next level, right associativity).
Notation "m ;;; k" := (bind m (fun _ => k))
  (at level 61, right associativity).

(** ** Constants of the script *)

Definition IMAGE_FOLDER : str := lit "imagens_produtos".

Definition GALLERY_CLASS : str := lit "ui-pdp-gallery__figure__image".

Definition BLOCKLIST : list str :=
  [lit "logo"; lit "icon"; lit "avatar"; lit "spinner";
   lit ".svg"; lit ".gif"; lit "base64"].

Definition NOT_FOUND : str := lit "Imagem não encontrada".

Definition DOWNLOAD_ERROR : str := lit "Erro ao baixar imagem".

Definition PLACEHOLDER_URL : str :=
  lit "https://placehold.co/600x400/eee/ccc?text=Imagem+Nao+Encontrada".

Definition short_desc_marker : str := lit "[DESCRIÇÃO CURTA]".

Definition long_desc_marker : str := lit "[DESCRIÇÃO LONGA HTML]".

Definition SHORT_EXTRACT_ERROR : str := lit "Erro ao extrair descrição curta".

Definition LONG_EXTRACT_ERROR : str := lit "<p>Erro ao extrair descrição longa.</p>".

Definition SHORT_GENERATE_ERROR : str := lit "Erro ao gerar descrição".

Definition LONG_GENERATE_ERROR : str := lit "<p>Erro ao gerar descrição.</p>".

Definition NL : str := [10%N].

(** The prompt of [generate_ai_descriptions], line by line. *)
Definition prompt (product_name : str) : str :=
  NL ++ lit "        Para o produto '" ++ product_name
     ++ lit "', crie duas descrições de venda distintas:" ++ NL
     ++ NL
     ++ lit "        [DESCRIÇÃO CURTA]" ++ NL
     ++ lit "        (Escreva aqui um resumo atraente e direto sobre o produto em 1 ou 2 linhas de texto puro)" ++ NL
     ++ NL
     ++ lit "        [DESCRIÇÃO LONGA HTML]" ++ NL
     ++ lit "        (Escreva aqui uma descrição completa para e-commerce, formatada em HTML. Use parágrafos `<p>`, listas `<ul><li>...</li></ul>` e negrito `<strong>` para destacar características importantes. Não inclua as tags `<html>` ou `<body>`, apenas o conteúdo HTML interno que iria dentro de uma div de produto.)" ++ NL
     ++ lit "        ".

(** The dict [generate_ai_descriptions] returns. *)
Record Descriptions := { short : str; long_html : str }.

(** ** Page elements *)

(** [tag.get(key)] *)
Fixpoint attr_get (attrs : list (str * str)) (key : str) : option str :=
  match attrs with
  | [] => None
  | (k, v) :: rest => if eqb k key then Some v else attr_get rest key
  end.

Definition get (t : Tag) (key : str) : option str := attr_get (tag_attrs t) key.

Definition is_named (name : str) (t : Tag) : bool := eqb (tag_name t) name.

Definition has_class (c : str) (t : Tag) : bool := existsb (eqb c) (tag_class t).

Definition has_attr (key value : str) (t : Tag) : bool :=
  match get t key with
  | Some v => eqb v value
  | None => false
  end.

(** [soup.find(name, ...)]: the first element in document order. *)
Definition soup_find (soup : Soup) (name : str) (p : Tag -> bool) : option Tag :=
  List.find (fun t => is_named name t && p t) soup.

(** [soup.find_all(name)] *)
Definition find_all (soup : Soup) (name : str) : list Tag :=
  filter (is_named name) soup.

(** [tag and tag.get(key)] *)
Definition and_get (tag : option Tag) (key : str) : option str :=
  match tag with
  | Some t => get t key
  | None => None
  end.

(** ** The functions of the script *)

Section Pipeline.
Context {ext : Externals}.

(** [if 'items' in result and result['items']: return
    result['items'][0]['link']], else [None]. *)
Definition first_link (r : SearchResult) : M (option str) :=
  match items r with
  | Some (item :: _) =>
      match link item with
      | Some url => ret (Some url)
      | None => raise (OtherException (lit "'link'"))
      end
  | _ => ret None
  end.

Definition search_product_page_url (product_name cse_id : str) : M (option str) :=
  try_except
    (r <- call (EvCseList product_name cse_id false)
               (fun w => cse_execute w product_name cse_id false) ;;
     first_link r)
    (fun e =>
       match e with
       | HttpError status _ =>
           (if (status =? 429)%Z then tqdm_write MsgSearchQuota
            else tqdm_write (MsgSearchApiError e)) ;;;
           ret None
       | _ => tqdm_write (MsgSearchUnexpected e) ;;; ret None
       end).

Definition search_google_images (product_name cse_id : str) : M (option str) :=
  tqdm_write MsgFinalAttempt ;;;
  try_except
    (r <- call (EvCseList product_name cse_id true)
               (fun w => cse_execute w product_name cse_id true) ;;
     image_url <- first_link r ;;
     match image_url with
     | Some u => tqdm_write (MsgImageFound u) ;;; ret (Some u)
     | None => ret None
     end)
    (fun e => tqdm_write (MsgImageSearchError e) ;;; ret None).

(** [resp.raise_for_status()] *)
Definition raise_for_status (resp : Response) : M unit :=
  if ((400 <=? status_code resp) && (status_code resp <? 600))%Z
  then raise (RequestException (lit "HTTPError"))
  else ret tt.

Definition blocklisted (src : str) : bool :=
  existsb (fun keyword => contains keyword (lower src)) BLOCKLIST.

(** The loop over [all_imgs] that fills [candidate_urls]. *)
Fixpoint candidate_urls (page_url : str) (all_imgs : list Tag) : result (list str) :=
  match all_imgs with
  | [] => Ok []
  | img :: rest =>
      match or_else (get img (lit "data-zoom"))
              (or_else (get img (lit "data-src")) (get img (lit "src"))) with
      | Some (c :: s) =>
          match urljoin page_url (c :: s) with
          | Raise e => Raise e
          | Ok src =>
              if blocklisted src then candidate_urls page_url rest
              else match candidate_urls page_url rest with
                   | Ok urls => Ok (src :: urls)
                   | Raise e => Raise e
                   end
          end
      | _ => candidate_urls page_url rest
      end
  end.

Definition is_zoom_or_large (url : str) : bool :=
  contains (lit "zoom") (lower url) || contains (lit "large") (lower url).

(** The choice among [candidate_urls]: the first with zoom or large in
    it, else the first; [None] when the list is empty. *)
Definition choose (urls : list str) : option str :=
  match List.find is_zoom_or_large urls with
  | Some url => Some url
  | None => hd_error urls
  end.

(** The three attempts on the parsed page (lines 116 to 146):
    [Some url] when one of them returns [url], [None] when control
    reaches the end of the [try] block. *)
Definition pick_image (page_url : str) (soup : Soup) : M (option str) :=
  let img_tag := soup_find soup (lit "img") (has_class GALLERY_CLASS) in
  if truthy (and_get img_tag (lit "data-zoom"))
  then ret (and_get img_tag (lit "data-zoom"))
  else
    let og_tag := soup_find soup (lit "meta") (has_attr (lit "property") (lit "og:image")) in
    if truthy (and_get og_tag (lit "content"))
    then ret (and_get og_tag (lit "content"))
    else
      urls <- lift (candidate_urls page_url (find_all soup (lit "img"))) ;;
      ret (choose urls).

(** The body of the [try] of [extract_image_url]: the page is fetched
    and parsed, then searched for an image. *)
Definition scrape (page_url : str) : M (option str) :=
  resp <- call (EvGet page_url false) (fun w => requests_get w page_url false) ;;
  raise_for_status resp ;;;
  soup <- (emit (EvSoup (text resp)) ;;; lift (BeautifulSoup (text resp))) ;;
  pick_image page_url soup.

Definition extract_image_url (page_url : option str) (product_name cse_id : str)
  : M (option str) :=
  match page_url with
  | Some (c :: u) =>
      found <- try_except (scrape (c :: u)) (fun _ => ret None) ;;
      match found with
      | Some url => ret (Some url)
      | None => search_google_images product_name cse_id
      end
  | _ => search_google_images product_name cse_id
  end.

(** [s] holds one of the two failure markers, in any letter case. *)
Definition is_failure_marker (s : str) : bool :=
  contains (lit "não encontrada") (lower s) || contains (lit "erro") (lower s).

Definition download_image (image_url : option str) (sku : str) : M (option str) :=
  match image_url with
  | None => ret image_url
  | Some url =>
      if negb (truthy image_url)
         || contains (lit "não encontrada") (lower url)
         || contains (lit "erro") (lower url)
      then ret image_url
      else
        try_except
          (response <- call (EvGet url true) (fun w => requests_get w url true) ;;
           raise_for_status response ;;;
           path <- lift (urlparse_path url) ;;
           let ext := match splitext_ext path with
                      | [] => lit ".jpg"
                      | e => e
                      end in
           let filename := sku ++ ext in
           call (EvMakedirs IMAGE_FOLDER) (fun w => makedirs w IMAGE_FOLDER) ;;;
           let filepath := path_join IMAGE_FOLDER filename in
           call (EvSaveFile filepath) (fun w => save_body w filepath response) ;;;
           ret (Some filepath))
          (fun _ => ret (Some DOWNLOAD_ERROR))
  end.

(** Lines 196 to 210: the two sections of the stripped response. *)
Definition parse_sections (text : str) : Descriptions :=
  if contains short_desc_marker text && contains long_desc_marker text then
    let start_short := (find short_desc_marker text + len short_desc_marker)%Z in
    let end_short := find long_desc_marker text in
    let short_desc := strip (slice text start_short end_short) in
    let start_long := (find long_desc_marker text + len long_desc_marker)%Z in
    let long_desc_html := strip (slice_from text start_long) in
    {| short := short_desc; long_html := long_desc_html |}
  else
    {| short := SHORT_EXTRACT_ERROR; long_html := LONG_EXTRACT_ERROR |}.

Definition generate_ai_descriptions (product_name : str) : M Descriptions :=
  try_except
    (response_text <- call (EvGenerate (lit "gemini-1.5-flash") (prompt product_name))
                       (fun w => generate_content w (lit "gemini-1.5-flash")
                                   (prompt product_name)) ;;
     ret (parse_sections (strip response_text)))
    (fun e =>
       (if contains (lit "quota") (lower (exn_str e))
        then tqdm_write MsgGeminiQuota
        else tqdm_write (MsgGeminiError e)) ;;;
       ret {| short := SHORT_GENERATE_ERROR; long_html := LONG_GENERATE_ERROR |}).

(** ** The main loop *)

(** A row of the input table; a field is [None] when the table has no
    such column. *)
Record Row := {
  row_sku : option str;
  row_name : option str;
  row_qty : option (number float);
  row_price : option (number float)
}.

(** [row.get(column, default)] *)
Definition row_get {A} (cell : option A) (default : A) : A :=
  match cell with
  | Some v => v
  | None => default
  end.

(** A row of the output table. *)
Record EnrichmentResult := {
  Nome : str;
  Descricao_Curta : str;
  Descricao_Longa_HTML : str;
  Preco : number float;
  Referencia_SKU : str;
  Peso : number float;
  Estoque : number float;
  URL_da_Imagem : str;
  Situacao : str;
  Caminho_Imagem_Local : option str;
  URL_Origem_Pagina : str
}.

(** The value of the image column: the placeholder when the marker is
    in [image_url], as written. *)
Definition image_column (image_url : str) : str :=
  if negb (contains (lit "não encontrada") image_url) then image_url
  else PLACEHOLDER_URL.

(** [product_page_url or "N/D"] *)
Definition page_column (product_page_url : option str) : str :=
  match product_page_url with
  | Some (c :: u) => c :: u
  | _ => lit "N/D"
  end.

(** The SKU and the name [main] reads from a row. *)
Definition sku_of (index : nat) (row : Row) : str :=
  row_get (row_sku row) (lit "SKU_GEN_" ++ of_nat index).

Definition name_of (row : Row) : str :=
  row_get (row_name row) (lit "PRODUTO_SEM_NOME").

(** [image_url] after [if not image_url: image_url = "Imagem não
    encontrada"], and the state after that statement. *)
Definition chosen_image (found : option str) : str :=
  match found with
  | Some (c :: u) => c :: u
  | _ => NOT_FOUND
  end.

Definition after_choice (found : option str) (st : State) : State :=
  match found with
  | Some (_ :: _) => st
  | _ => log (EvWrite MsgNoImage) st
  end.

(** [r] carries the columns of [row], read at position [index]. *)
Definition made_from (index : nat) (row : Row) (r : EnrichmentResult) : Prop :=
  Referencia_SKU r = sku_of index row /\
  Nome r = name_of row /\
  Preco r = row_get (row_price row) (Float zero_float) /\
  Estoque r = row_get (row_qty row) (Int 0).

(** The rows with their positions, from [index] on. *)
Definition indexed (index : nat) (rows : list Row) : list (nat * Row) :=
  combine (seq index (List.length rows)) rows.

(** The body of the loop of [main]: one row in, the list of results one
    longer. *)
Definition process (index : nat) (row : Row) (processed_products : list EnrichmentResult)
  : M (list EnrichmentResult) :=
  let sku := row_get (row_sku row) (lit "SKU_GEN_" ++ of_nat index) in
  let name := row_get (row_name row) (lit "PRODUTO_SEM_NOME") in
  let quantity := row_get (row_qty row) (Int 0) in
  let price := row_get (row_price row) (Float zero_float) in
  tqdm_write (MsgProcessing name) ;;;
  product_page_url <- search_product_page_url name CSE_ID ;;
  found <- extract_image_url product_page_url name CSE_ID ;;
  image_url <- match found with
               | Some (c :: u) => ret (c :: u)
               | _ => tqdm_write MsgNoImage ;;; ret NOT_FOUND
               end ;;
  local_image_path <- download_image (Some image_url) sku ;;
  descriptions <- generate_ai_descriptions name ;;
  let processed_products :=
    processed_products ++
    [{| Nome := name;
        Descricao_Curta := short descriptions;
        Descricao_Longa_HTML := long_html descriptions;
        Preco := price;
        Referencia_SKU := sku;
        Peso := Int 0;
        Estoque := quantity;
        URL_da_Imagem := image_column image_url;
        Situacao := lit "Ativo";
        Caminho_Imagem_Local := local_image_path;
        URL_Origem_Pagina := page_column product_page_url |}] in
  sleep 1 ;;;
  ret processed_products.

(** [for index, row in df.iterrows(): ...], the rows numbered from
    [index] on. *)
Fixpoint main_loop (index : nat) (rows : list Row)
         (processed_products : list EnrichmentResult) : M (list EnrichmentResult) :=
  match rows with
  | [] => ret processed_products
  | row :: rest =>
      processed_products <- process index row processed_products ;;
      main_loop (S index) rest processed_products
  end.

End Pipeline.

(** ** A scripted world

    A small shop on which the pipeline can be run: four product pages,
    an image search that knows two products, and a model that answers
    three prompts.  Every library function is given on the inputs the
    scenarios use. *)

Module Scenario.

Definition page1 : str := lit "http://shop.test/p1".
Definition page2 : str := lit "http://shop.test/p2".
Definition page3 : str := lit "http://shop.test/p3".
Definition page4 : str := lit "http://shop.test/p4".

Definition markup1 : str :=
  lit "<meta property='og:image' content='http://shop.test/w.jpg'><img src='http://shop.test/banner.jpg'>".
Definition markup2 : str :=
  lit "<meta property='og:image'><meta property='og:image' content='http://shop.test/g.jpg'><img src='http://shop.test/banner.jpg'>".
Definition markup3 : str :=
  lit "<meta property='og:image' content='http://shop.test/logo.png'>".
Definition markup4 : str :=
  lit "<img src='http://shop.test/Logo.png'><img data-src='http://shop.test/photo.jpg'>".

Definition meta (attrs : list (str * str)) : Tag :=
  {| tag_name := lit "meta"; tag_class := []; tag_attrs := attrs |}.

Definition img (attrs : list (str * str)) : Tag :=
  {| tag_name := lit "img"; tag_class := []; tag_attrs := attrs |}.

Definition og : str * str := (lit "property", lit "og:image").

Definition soup1 : Soup :=
  [meta [og; (lit "content", lit "http://shop.test/w.jpg")];
   img [(lit "src", lit "http://shop.test/banner.jpg")]].
Definition soup2 : Soup :=
  [meta [og];
   meta [og; (lit "content", lit "http://shop.test/g.jpg")];
   img [(lit "src", lit "http://shop.test/banner.jpg")]].
Definition soup3 : Soup :=
  [meta [og; (lit "content", lit "http://shop.test/logo.png")]].
Definition soup4 : Soup :=
  [img [(lit "src", lit "http://shop.test/Logo.png")];
   img [(lit "data-src", lit "http://shop.test/photo.jpg")]].

Definition one_link (url : str) : SearchResult :=
  {| items := Some [{| link := Some url |}] |}.

Definition no_items : SearchResult := {| items := None |}.

Definition search (q : str) (image : bool) : result SearchResult :=
  if image then
    if eqb q (lit "Terror") then Ok (one_link (lit "http://cdn.test/terror.jpg"))
    else if eqb q (lit "Aviso") then Ok (one_link (lit "http://cdn.test/img?t=NÃO ENCONTRADA"))
    else if eqb q (lit "Quota") then Raise (HttpError 429 (lit "quota"))
    else Ok no_items
  else
    if eqb q (lit "Widget") then Ok (one_link page1)
    else if eqb q (lit "Gadget") then Ok (one_link page2)
    else if eqb q (lit "Sticker") then Ok (one_link page3)
    else if eqb q (lit "Poster") then Ok (one_link page4)
    else if eqb q (lit "Quota") then Raise (HttpError 429 (lit "quota"))
    else Ok no_items.

Definition fetch (url : str) : result Response :=
  if eqb url page1 then Ok {| status_code := 200; text := markup1 |}
  else if eqb url page2 then Ok {| status_code := 200; text := markup2 |}
  else if eqb url page3 then Ok {| status_code := 200; text := markup3 |}
  else if eqb url page4 then Ok {| status_code := 200; text := markup4 |}
  else if eqb url (lit "http://shop.test/w.jpg") then Ok {| status_code := 200; text := [] |}
  else Raise (RequestException (lit "connection refused")).

Definition parse (markup : str) : result Soup :=
  if eqb markup markup1 then Ok soup1
  else if eqb markup markup2 then Ok soup2
  else if eqb markup markup3 then Ok soup3
  else if eqb markup markup4 then Ok soup4
  else Ok [].

Definition well_formed_answer : str :=
  lit "  [DESCRIÇÃO CURTA]" ++ NL ++ lit "Um widget." ++ NL
  ++ lit "[DESCRIÇÃO LONGA HTML]" ++ NL ++ lit "<p>Um widget.</p>" ++ NL.

Definition truncated_answer : str :=
  lit "[DESCRIÇÃO CURTA]" ++ NL ++ lit "Um gadget.".

Definition reversed_answer : str :=
  NL ++ lit "[DESCRIÇÃO LONGA HTML]" ++ NL ++ lit "<p>Um adesivo.</p>" ++ NL
  ++ lit "[DESCRIÇÃO CURTA]" ++ NL ++ lit "Um adesivo." ++ NL.

Definition answer (p : str) : result str :=
  if eqb p (prompt (lit "Widget")) then Ok well_formed_answer
  else if eqb p (prompt (lit "Gadget")) then Ok truncated_answer
  else if eqb p (prompt (lit "Sticker")) then Ok reversed_answer
  else Raise (OtherException (lit "429 Quota exceeded")).

#[export] Instance shop : Externals := {|
  World := unit;
  float := Z;
  zero_float := 0%Z;
  CSE_ID := lit "cx-test";
  lower := List.map lower_cp;
  cse_execute := fun w q _ image => (search q image, w);
  requests_get := fun w url _ => (fetch url, w);
  BeautifulSoup := parse;
  urljoin := fun _ url => Ok url;
  urlparse_path := fun url =>
    if eqb url (lit "http://shop.test/w.jpg") then Ok (lit "/w.jpg") else Ok [];
  splitext_ext := fun path =>
    if eqb path (lit "/w.jpg") then lit ".jpg" else [];
  path_join := fun a b => a ++ lit "/" ++ b;
  makedirs := fun w _ => (Ok tt, w);
  save_body := fun w _ _ => (Ok tt, w);
  generate_content := fun w _ p => (answer p, w)
|}.

Definition start : State := {| world := tt; trace := [] |}.

Definition ten : float := 10%Z.

Definition row_named (sku name : str) : Row :=
  {| row_sku := Some sku; row_name := Some name;
     row_qty := Some (Int 1); row_price := Some (Float ten) |}.

(** A product neither search knows. *)
Definition nothing : Row := row_named (lit "P9") (lit "Nada").

(** A world in which every service and every library call fails. *)
Definition down {A} : result A := Raise (OtherException (lit "unavailable")).

Definition outage : Externals := {|
  World := unit;
  float := Z;
  zero_float := 0%Z;
  CSE_ID := lit "cx-test";
  lower := List.map lower_cp;
  cse_execute := fun w _ _ _ => (Raise (HttpError 503 (lit "unavailable")), w);
  requests_get := fun w _ _ => (Raise (RequestException (lit "timeout")), w);
  BeautifulSoup := fun _ => down;
  urljoin := fun _ _ => down;
  urlparse_path := fun _ => down;
  splitext_ext := fun _ => [];
  path_join := fun a b => a ++ lit "/" ++ b;
  makedirs := fun w _ => (down, w);
  save_body := fun w _ _ => (down, w);
  generate_content := fun w _ _ => (Raise (OtherException (lit "429 Quota exceeded")), w)
|}.

(** Two rows of a table that has neither a SKU nor a price column. *)
Definition bare_rows : list (Row (ext := outage)) :=
  [{| row_sku := None; row_name := Some (lit "Widget");
      row_qty := None; row_price := None |};
   {| row_sku := None; row_name := None;
      row_qty := Some (Int 3); row_price := None |}].

Definition dark : State (ext := outage) := Build_State (ext := outage) tt [].

End Scenario.

(** ** Counting events *)

Definition is_generate (ev : Event) : bool :=
  match ev with EvGenerate _ _ => true | _ => false end.

Definition is_sleep (ev : Event) : bool :=
  match ev with EvSleep _ => true | _ => false end.

Section Budget.
Context {ext : Externals}.

(** A list of events with exactly [a] page searches, [b] calls to the
    model and [c] pauses, and at most [d] image searches, [e] HTTP
    requests and [f] file-system calls. *)
Definition bounded (a b c d e f : nat) (evs : list Event) : Prop :=
  count is_page_search evs = a /\
  count is_generate evs = b /\
  count is_sleep evs = c /\
  count is_image_search evs <= d /\
  count is_get evs <= e /\
  count is_file_write evs <= f.

(** A list of events that holds [n] page searches, [n] calls to the
    model and [n] pauses, at most [n] image searches, and at most [2 * n]
    HTTP requests and [2 * n] file-system calls. *)
Definition within_budget (n : nat) (evs : list Event) : Prop :=
  count is_page_search evs = n /\
  count is_generate evs = n /\
  count is_sleep evs = n /\
  count is_image_search evs <= n /\
  count is_get evs <= 2 * n /\
  count is_file_write evs <= 2 * n.

(** The events the resolution of an image can leave before the image
    search: nothing, the request for the page, or the request and the
    parse. *)
Definition scrape_events (evs : list Event) : Prop :=
  evs = [] \/
  (exists url, evs = [EvGet url false]) \/
  (exists url markup, evs = [EvGet url false; EvSoup markup]).

(** The events of an image search, or none. *)
Definition fallback_events (q cx : str) (evs : list Event) : Prop :=
  evs = [] \/
  exists msgs,
    evs = EvWrite MsgFinalAttempt :: EvCseList q cx true :: List.map EvWrite msgs.

(** The source attribute the loop over the images reads:
    [img.get('data-zoom') or img.get('data-src') or img.get('src')]. *)
Definition preferred_src (img : Tag) : option str :=
  or_else (get img (lit "data-zoom"))
    (or_else (get img (lit "data-src")) (get img (lit "src"))).

(** [os.path.splitext(path)[1] or '.jpg'] *)
Definition image_ext (path : str) : str :=
  match splitext_ext path with
  | [] => lit ".jpg"
  | e => e
  end.

(** The events a download can leave: nothing, or the request, then the
    directory, then the file, in this order and stopping at the first
    failure. *)
Definition download_events (url : str) (evs : list Event) : Prop :=
  evs = [] \/
  evs = [EvGet url true] \/
  evs = [EvGet url true; EvMakedirs IMAGE_FOLDER] \/
  exists filepath,
    evs = [EvGet url true; EvMakedirs IMAGE_FOLDER; EvSaveFile filepath].

End Budget.

(** ** The entry point *)

Definition OUTPUT_FILENAME : str := lit "produtos_formatados.xlsx".

(** [t.endswith(m)] *)
Definition endswith (m t : str) : bool := startswith (rev m) (rev t).

(** What [main] prints. *)
Inductive Notice : Type :=
| NoKeys
| ConfigureFailed (e : exn)
| FileNotFound (input_path : str)
| UnsupportedFormat
| ReadFailed (input_path : str) (e : exn)
| Starting (products : nat)
| AllDone
| SavedAs (filename : str)
| ImagesIn (folder : str)
| NothingProcessed.

Section Shell.
Context {ext : Externals}.

(** What [main] does besides running the loop. *)
Inductive ShellEvent : Type :=
| ShPrint (n : Notice)
| ShConfigure (api_key : str)
| ShInput
| ShExists (path : str)
| ShReadCsv (path : str)
| ShReadExcel (path : str)
| ShBuild (developerKey : str)
| ShToExcel (filename : str) (rows : list EnrichmentResult).

Definition is_build (ev : ShellEvent) : bool :=
  match ev with ShBuild _ => true | _ => false end.

Definition is_export (ev : ShellEvent) : bool :=
  match ev with ShToExcel _ _ => true | _ => false end.

(** The keys, the console, the file system and the spreadsheet library
    as [main] uses them. *)
Class Desk : Type := {
  GOOGLE_API_KEY : str;
  GEMINI_API_KEY : str;
  (** [genai.configure(api_key=key)] *)
  genai_configure : World -> str -> result unit * World;
  (** [input(...)] *)
  input : World -> result str * World;
  (** [os.path.exists(path)] *)
  path_exists : World -> str -> bool;
  (** [pd.read_csv(path, sep=';', ...)], as the rows of the table *)
  read_csv : World -> str -> result (list Row) * World;
  (** [pd.read_excel(path)], as the rows of the table *)
  read_excel : World -> str -> result (list Row) * World;
  (** [build("customsearch", "v1", developerKey=key)] *)
  build_service : World -> str -> result unit * World;
  (** [pd.DataFrame(rows).to_excel(filename, index=False)] *)
  to_excel : World -> str -> list EnrichmentResult -> result unit * World
}.

Context {desk : Desk}.

(** The state of a run of [main]: that of the pipeline, and what [main]
    itself did. *)
Record Session := { state : State; shell : list ShellEvent }.

Definition SM (A : Type) : Type := Session -> result A * Session.

Definition sret {A} (a : A) : SM A := fun s => (Ok a, s).

Definition sbind {A B} (m : SM A) (k : A -> SM B) : SM B :=
  fun s =>
    match m s with
    | (Ok a, s') => k a s'
    | (Raise e, s') => (Raise e, s')
    end.

Definition stry {A} (body : SM A) (handler : exn -> SM A) : SM A :=
  fun s =>
    match body s with
    | (Ok a, s') => (Ok a, s')
    | (Raise e, s') => handler e s'
    end.

Definition note (ev : ShellEvent) (s : Session) : Session :=
  {| state := state s; shell := shell s ++ [ev] |}.

Definition print (n : Notice) : SM unit := fun s => (Ok tt, note (ShPrint n) s).

(** A call [main] makes to the outside world. *)
Definition shell_call {A} (ev : ShellEvent) (f : World -> result A * World) : SM A :=
  fun s =>
    let (r, w) := f (world (state s)) in
    (r, {| state := {| world := w; trace := trace (state s) |};
           shell := shell s ++ [ev] |}).

(** A computation of the pipeline, run inside [main]. *)
Definition run {A} (m : M A) : SM A :=
  fun s =>
    let (r, st) := m (state s) in
    (r, {| state := st; shell := shell s |}).

End Shell.

Notation "x <~ m ;; k" := (sbind m (fun x => k))
  (at level 61, m at next level, right associativity).
Notation "m ;;~ k" := (sbind m (fun _ => k))
  (at level 61, right associativity).

Section Main.
Context {ext : Externals} {desk : Desk}.

(** The [if]/[elif]/[else] that reads the table; [None] when the format
    is not supported. *)
Definition read_table (input_path : str) : SM (option (list Row)) :=
  if endswith (lit ".csv") (lower input_path) then
    df <~ shell_call (ShReadCsv input_path) (fun w => read_csv w input_path) ;;
    sret (Some df)
  else if endswith (lit ".xls") (lower input_path)
          || endswith (lit ".xlsx") (lower input_path) then
    df <~ shell_call (ShReadExcel input_path) (fun w => read_excel w input_path) ;;
    sret (Some df)
  else
    print UnsupportedFormat ;;~ sret None.

(** [main] from line 249 on: the loop and the export. *)
Definition enrich_table (df : list Row) : SM unit :=
  print (Starting (List.length df)) ;;~
  shell_call (ShBuild GOOGLE_API_KEY) (fun w => build_service w GOOGLE_API_KEY) ;;~
  processed_products <~ run (main_loop 0 df []) ;;
  match processed_products with
  | _ :: _ =>
      shell_call (ShToExcel OUTPUT_FILENAME processed_products)
        (fun w => to_excel w OUTPUT_FILENAME processed_products) ;;~
      print AllDone ;;~
      print (SavedAs OUTPUT_FILENAME) ;;~
      print (ImagesIn IMAGE_FOLDER)
  | [] => print NothingProcessed
  end.

Definition main : SM unit :=
  if contains (lit "COLE_SUA_CHAVE") GOOGLE_API_KEY
     || contains (lit "COLE_SEU_ID") CSE_ID
     || contains (lit "COLE_SUA_CHAVE") GEMINI_API_KEY
  then print NoKeys
  else
    configured <~ stry
                    (shell_call (ShConfigure GEMINI_API_KEY)
                       (fun w => genai_configure w GEMINI_API_KEY) ;;~
                     sret true)
                    (fun e => print (ConfigureFailed e) ;;~ sret false) ;;
    if negb configured then sret tt
    else
      input_path <~ shell_call ShInput input ;;
      found <~ shell_call (ShExists input_path)
                 (fun w => (Ok (path_exists w input_path), w)) ;;
      if negb found then print (FileNotFound input_path)
      else
        df <~ stry (read_table input_path)
                (fun e => print (ReadFailed input_path e) ;;~ sret None) ;;
        match df with
        | Some rows => enrich_table rows
        | None => sret tt
        end.

(** What [main] leaves in its own log before the table is in hand. *)
Definition before_table (evs : list ShellEvent) : Prop :=
  existsb is_build evs = false /\ existsb is_export evs = false.

(** What [main] leaves in its own log once the table is read: the
    notice, the service, then either nothing more (the service could not
    be built), the notice that nothing was processed, or the export,
    followed by the three closing notices when it succeeded. *)
Definition after_table (rows : list Row) (r : result unit) (tr tr' : list Event)
           (evs : list ShellEvent) : Prop :=
  (evs = [] /\ tr' = tr /\ exists e, r = Raise e) \/
  (rows = [] /\ evs = [ShPrint NothingProcessed] /\ r = Ok tt) \/
  (exists out,
      out <> [] /\
      Forall2 (fun ir x => made_from (fst ir) (snd ir) x) (indexed 0 rows) out /\
      ((evs = [ShToExcel OUTPUT_FILENAME out] /\ exists e, r = Raise e) \/
       (evs = [ShToExcel OUTPUT_FILENAME out; ShPrint AllDone;
               ShPrint (SavedAs OUTPUT_FILENAME); ShPrint (ImagesIn IMAGE_FOLDER)] /\
        r = Ok tt))).

End Main.

(** ** More scripted worlds *)

Module Office.
Import Scenario.

(** The shop, with a page whose second image has a source that
    [urljoin] rejects. *)
Definition page5 : str := lit "http://shop.test/p5".
Definition markup5 : str :=
  lit "<img src='http://shop.test/photo.jpg'><img src='http://[bad'>".
Definition soup5 : Soup :=
  [img [(lit "src", lit "http://shop.test/photo.jpg")];
   img [(lit "src", lit "http://[bad")]].

(** A page of the marketplace: a gallery image with a zoom value, and an
    [og:image] as well. *)
Definition page6 : str := lit "http://shop.test/p6".
Definition markup6 : str :=
  lit "<meta property='og:image' content='http://shop.test/og.jpg'><img class='ui-pdp-gallery__figure__image' data-zoom='http://shop.test/zoom.jpg'>".
Definition soup6 : Soup :=
  [meta [og; (lit "content", lit "http://shop.test/og.jpg")];
   {| tag_name := lit "img"; tag_class := [GALLERY_CLASS];
      tag_attrs := [(lit "data-zoom", lit "http://shop.test/zoom.jpg")] |}].

(** A page that answers 404. *)
Definition page7 : str := lit "http://shop.test/gone".

Definition strict : Externals := {|
  World := unit;
  float := Z;
  zero_float := 0%Z;
  CSE_ID := lit "cx-test";
  lower := List.map lower_cp;
  cse_execute := fun w q _ image => (search q image, w);
  requests_get := fun w url _ =>
    (if eqb url page5 then Ok {| status_code := 200; text := markup5 |}
     else if eqb url page6 then Ok {| status_code := 200; text := markup6 |}
     else if eqb url page7 then Ok {| status_code := 404; text := [] |}
     else if eqb url (lit "http://shop.test/plain") then Ok {| status_code := 200; text := [] |}
     else fetch url, w);
  BeautifulSoup := fun markup =>
    if eqb markup markup5 then Ok soup5
    else if eqb markup markup6 then Ok soup6
    else parse markup;
  urljoin := fun _ url =>
    if eqb url (lit "http://[bad") then Raise (OtherException (lit "Invalid IPv6 URL"))
    else Ok url;
  urlparse_path := fun url =>
    if eqb url (lit "http://shop.test/w.jpg") then Ok (lit "/w.jpg")
    else if eqb url (lit "http://shop.test/plain") then Ok (lit "/plain")
    else Ok [];
  splitext_ext := fun path =>
    if eqb path (lit "/w.jpg") then lit ".jpg" else [];
  path_join := fun a b => a ++ lit "/" ++ b;
  makedirs := fun w _ => (Ok tt, w);
  save_body := fun w _ _ => (Ok tt, w);
  generate_content := fun w _ p => (answer p, w)
|}.

Definition opening : State (ext := strict) := Build_State (ext := strict) tt [].

(** A desk at the shop: real keys, a table of two products. *)
Definition table : list (Row (ext := shop)) :=
  [row_named (lit "P1") (lit "Widget"); nothing].

#[export] Instance front : Desk (ext := shop) := {|
  GOOGLE_API_KEY := lit "AIza-test";
  GEMINI_API_KEY := lit "gm-test";
  genai_configure := fun w _ => (Ok tt, w);
  input := fun w => (Ok (lit "Produtos.CSV"), w);
  path_exists := fun _ path => eqb path (lit "Produtos.CSV");
  read_csv := fun w _ => (Ok table, w);
  read_excel := fun w _ => (Raise (OtherException (lit "not a workbook")), w);
  build_service := fun w _ => (Ok tt, w);
  to_excel := fun w _ _ => (Ok tt, w)
|}.

(** The same desk before the operator has put the keys in. *)
Definition untouched : Desk (ext := shop) := {|
  GOOGLE_API_KEY := lit "COLE_SUA_CHAVE_DA_GOOGLE_API_AQUI";
  GEMINI_API_KEY := lit "COLE_SUA_CHAVE_DA_API_GEMINI_AQUI";
  genai_configure := fun w _ => (Ok tt, w);
  input := fun w => (Ok (lit "Produtos.CSV"), w);
  path_exists := fun _ path => eqb path (lit "Produtos.CSV");
  read_csv := fun w _ => (Ok table, w);
  read_excel := fun w _ => (Raise (OtherException (lit "not a workbook")), w);
  build_service := fun w _ => (Ok tt, w);
  to_excel := fun w _ _ => (Ok tt, w)
|}.


Definition morning : Session (ext := shop) :=
  {| state := start; shell := [] |}.

End Office.

(** ** Facts about strings *)

(** Literals are decoded to code points. *)
Example lit_marker :
  lit "não" = [110; 227; 111]%N.
Proof. reflexivity. Qed.

Section StrFacts.

Lemma startswith_app (m r : str) : startswith m (m ++ r) = true.
Proof.
  induction m as [|a m IH]; simpl.
  - reflexivity.
  - rewrite N.eqb_refl. exact IH.
Qed.

Lemma startswith_split (m t : str) :
  startswith m t = true -> exists r, t = m ++ r.
Proof.
  revert t. induction m as [|a m IH]; intros t H.
  - exists t. reflexivity.
  - destruct t as [|b t]; simpl in H; [discriminate|].
    apply andb_prop in H. destruct H as [Hab Hm].
    apply N.eqb_eq in Hab. subst b.
    destruct (IH t Hm) as [r ->]. exists r. reflexivity.
Qed.

Lemma startswith_length (m t : str) :
  startswith m t = true -> (List.length m <= List.length t)%nat.
Proof.
  intros H. destruct (startswith_split m t H) as [r ->].
  rewrite length_app. lia.
Qed.

Lemma startswith_weaken (m t r : str) :
  startswith m t = true -> startswith m (t ++ r) = true.
Proof.
  intros H. destruct (startswith_split m t H) as [q ->].
  rewrite <- app_assoc. apply startswith_app.
Qed.

Lemma contains_index_of (m t : str) :
  contains m t = match index_of m t with Some _ => true | None => false end.
Proof.
  induction t as [|c t IH].
  - simpl. destruct (startswith m []); reflexivity.
  - simpl. destruct (startswith m (c :: t)); simpl.
    + reflexivity.
    + rewrite IH. destruct (index_of m t); reflexivity.
Qed.

Lemma contains_weaken (m t r : str) :
  contains m t = true -> contains m (t ++ r) = true.
Proof.
  induction t as [|c t IH]; intros H.
  - simpl in H. rewrite orb_false_r in H.
    destruct m; [|discriminate]. destruct r; reflexivity.
  - simpl in H. apply orb_prop in H. destruct H as [H|H].
    + change ((c :: t) ++ r) with (c :: t ++ r).
      pose proof (startswith_weaken m (c :: t) r H) as Hw.
      simpl in Hw. simpl. rewrite Hw. reflexivity.
    + simpl. rewrite (IH H). apply orb_true_r.
Qed.

Lemma index_of_fits (m t : str) (i : nat) :
  index_of m t = Some i -> (i + List.length m <= List.length t)%nat.
Proof.
  revert i. induction t as [|c t IH]; intros i H.
  - simpl in H. destruct (startswith m []) eqn:E; [|discriminate].
    injection H as <-. apply startswith_length in E. simpl in *. lia.
  - simpl in H. destruct (startswith m (c :: t)) eqn:E.
    + injection H as <-. apply startswith_length in E. simpl in *. lia.
    + destruct (index_of m t) as [j|]; [|discriminate].
      injection H as <-. specialize (IH j eq_refl). simpl. lia.
Qed.

Lemma startswith_app_space (m t ws : str) :
  ends_nonspace m = true -> forallb isspace ws = true ->
  startswith m (t ++ ws) = startswith m t.
Proof.
  revert t ws. induction m as [|a m IH]; intros t ws Hm Hws.
  - discriminate.
  - destruct m as [|a' m].
    + destruct t as [|b t]; simpl.
      * destruct ws as [|w ws]; [reflexivity|].
        simpl in Hws. apply andb_prop in Hws. destruct Hws as [Hw _].
        simpl in Hm. destruct (N.eqb_spec a w) as [->|]; [|reflexivity].
        rewrite Hw in Hm. discriminate.
      * reflexivity.
    + destruct t as [|b t].
      * simpl app. destruct ws as [|w ws]; [reflexivity|].
        simpl in Hws. apply andb_prop in Hws. destruct Hws as [_ Hws].
        change (startswith (a :: a' :: m) (w :: ws))
          with ((a =? w)%N && startswith (a' :: m) ([] ++ ws)).
        rewrite (IH [] ws Hm Hws). simpl. apply andb_false_r.
      * change (startswith (a :: a' :: m) ((b :: t) ++ ws))
          with ((a =? b)%N && startswith (a' :: m) (t ++ ws)).
        rewrite (IH t ws Hm Hws). reflexivity.
Qed.

Lemma index_of_spaces (m ws : str) :
  ends_nonspace m = true -> forallb isspace ws = true -> index_of m ws = None.
Proof.
  intros Hm. induction ws as [|w ws IH]; intros Hws.
  - simpl. destruct m; [discriminate | reflexivity].
  - pose proof (startswith_app_space m [] (w :: ws) Hm Hws) as E.
    simpl app in E. simpl in Hws. apply andb_prop in Hws.
    destruct Hws as [_ Hws].
    simpl index_of. rewrite E.
    destruct m; [discriminate|]. simpl. rewrite (IH Hws). reflexivity.
Qed.

Lemma index_of_app_space (m t ws : str) :
  ends_nonspace m = true -> forallb isspace ws = true ->
  index_of m (t ++ ws) = index_of m t.
Proof.
  intros Hm Hws. induction t as [|c t IH].
  - simpl app. rewrite (index_of_spaces m ws Hm Hws).
    simpl. destruct m; [discriminate | reflexivity].
  - change ((c :: t) ++ ws) with (c :: t ++ ws).
    pose proof (startswith_app_space m (c :: t) ws Hm Hws) as E.
    change ((c :: t) ++ ws) with (c :: t ++ ws) in E.
    simpl index_of. rewrite E, IH. reflexivity.
Qed.

Lemma index_of_skip_space (m ws t : str) :
  starts_nonspace m = true -> forallb isspace ws = true ->
  index_of m (ws ++ t) = option_map (Nat.add (List.length ws)) (index_of m t).
Proof.
  intros Hm. induction ws as [|w ws IH]; intros Hws.
  - simpl. destruct (index_of m t); reflexivity.
  - simpl in Hws. apply andb_prop in Hws. destruct Hws as [Hw Hws].
    change ((w :: ws) ++ t) with (w :: ws ++ t). simpl index_of.
    destruct m as [|a m]; [discriminate|]. simpl in Hm.
    assert (startswith (a :: m) (w :: ws ++ t) = false) as ->.
    { simpl. destruct (N.eqb_spec a w) as [->|]; [|reflexivity].
      rewrite Hw in Hm. discriminate. }
    rewrite (IH Hws). destruct (index_of (a :: m) t); reflexivity.
Qed.

Lemma lstrip_split (t : str) :
  exists ws, t = ws ++ lstrip t /\ forallb isspace ws = true.
Proof.
  induction t as [|c t IH].
  - exists []. split; reflexivity.
  - simpl. destruct (isspace c) eqn:E.
    + destruct IH as [ws [Ht Hws]]. exists (c :: ws). split.
      * simpl. f_equal. exact Ht.
      * simpl. rewrite E. exact Hws.
    + exists []. split; reflexivity.
Qed.

Lemma rstrip_split (t : str) :
  exists ws, t = rstrip t ++ ws /\ forallb isspace ws = true.
Proof.
  induction t as [|c t IH].
  - exists []. split; reflexivity.
  - destruct IH as [ws [Ht Hws]]. simpl.
    destruct (rstrip t) as [|r rs] eqn:Er.
    + destruct (isspace c) eqn:E.
      * exists (c :: ws). split.
        -- simpl. f_equal. exact Ht.
        -- simpl. rewrite E. exact Hws.
      * exists ws. split; [|exact Hws]. simpl. f_equal. exact Ht.
    + exists ws. split; [|exact Hws].
      change ((c :: r :: rs) ++ ws) with (c :: (r :: rs) ++ ws).
      f_equal. exact Ht.
Qed.

Lemma rstrip_spaces (ws : str) : forallb isspace ws = true -> rstrip ws = [].
Proof.
  induction ws as [|w ws IH]; intros H.
  - reflexivity.
  - simpl in H. apply andb_prop in H. destruct H as [Hw H].
    simpl. rewrite (IH H), Hw. reflexivity.
Qed.

Lemma rstrip_app_space (t ws : str) :
  forallb isspace ws = true -> rstrip (t ++ ws) = rstrip t.
Proof.
  intros H. induction t as [|c t IH].
  - simpl. apply rstrip_spaces. exact H.
  - change ((c :: t) ++ ws) with (c :: t ++ ws). simpl. rewrite IH. reflexivity.
Qed.

Lemma lstrip_spaces (ws : str) : forallb isspace ws = true -> lstrip ws = [].
Proof.
  induction ws as [|w ws IH]; intros H.
  - reflexivity.
  - simpl in H. apply andb_prop in H. destruct H as [Hw H].
    simpl. rewrite Hw. exact (IH H).
Qed.

Lemma strip_app_space (t ws : str) :
  forallb isspace ws = true -> strip (t ++ ws) = strip t.
Proof.
  intros H. unfold strip. induction t as [|c t IH].
  - simpl app. rewrite (lstrip_spaces ws H). reflexivity.
  - change ((c :: t) ++ ws) with (c :: t ++ ws). simpl.
    destruct (isspace c).
    + exact IH.
    + change (c :: t ++ ws) with ((c :: t) ++ ws).
      apply rstrip_app_space. exact H.
Qed.

(** A string is its stripped form between two runs of whitespace. *)
Lemma strip_split (t : str) :
  exists ws1 ws2,
    t = ws1 ++ strip t ++ ws2 /\
    forallb isspace ws1 = true /\ forallb isspace ws2 = true.
Proof.
  destruct (lstrip_split t) as [ws1 [H1 Hs1]].
  destruct (rstrip_split (lstrip t)) as [ws2 [H2 Hs2]].
  exists ws1, ws2. unfold strip. rewrite <- H2. auto.
Qed.

Lemma index_of_between (m t ws1 ws2 : str) :
  starts_nonspace m = true -> ends_nonspace m = true ->
  forallb isspace ws1 = true -> forallb isspace ws2 = true ->
  index_of m (ws1 ++ t ++ ws2) = option_map (Nat.add (List.length ws1)) (index_of m t).
Proof.
  intros Hs He H1 H2.
  rewrite (index_of_skip_space m ws1 (t ++ ws2) Hs H1).
  rewrite (index_of_app_space m t ws2 He H2). reflexivity.
Qed.

Lemma skipn_between (j : nat) (t ws1 ws2 : str) :
  (j <= List.length t)%nat ->
  skipn (List.length ws1 + j) (ws1 ++ t ++ ws2) = skipn j t ++ ws2.
Proof.
  intros H. rewrite !skipn_app.
  rewrite skipn_all2 by lia.
  replace (List.length ws1 + j - List.length ws1)%nat with j by lia.
  replace (j - List.length t)%nat with 0%nat by lia.
  reflexivity.
Qed.

Lemma contains_strip (m t : str) :
  contains m (strip t) = true -> contains m t = true.
Proof.
  intros H. destruct (strip_split t) as [ws1 [ws2 [Ht _]]].
  rewrite Ht. apply (contains_weaken m (strip t) ws2) in H.
  clear Ht. induction ws1 as [|w ws1 IH].
  - exact H.
  - change ((w :: ws1) ++ strip t ++ ws2) with (w :: ws1 ++ strip t ++ ws2).
    simpl. rewrite IH. apply orb_true_r.
Qed.

Lemma clamp_inside (n : nat) (i : nat) :
  (i <= n)%nat -> clamp (Z.of_nat n) (Z.of_nat i) = i.
Proof.
  intros H. unfold clamp.
  destruct (Z.ltb_spec (Z.of_nat i) 0); lia.
Qed.

Lemma clamp_mono (n : Z) (a b : Z) :
  (0 <= a)%Z -> (a <= b)%Z -> (clamp n a <= clamp n b)%nat.
Proof.
  intros Ha Hab. unfold clamp.
  destruct (Z.ltb_spec a 0); destruct (Z.ltb_spec b 0); lia.
Qed.

End StrFacts.

(** ** Two runs of the pipeline *)

(** The pipeline runs on the scripted world: scenario A of the spec. *)
Example scenario_A :
  fst (process (ext := Scenario.shop) 0 (Scenario.row_named (lit "P1") (lit "Widget")) [] Scenario.start)
  = Ok [{| Nome := lit "Widget";
           Descricao_Curta := lit "Um widget.";
           Descricao_Longa_HTML := lit "<p>Um widget.</p>";
           Preco := Float Scenario.ten;
           Referencia_SKU := lit "P1";
           Peso := Int 0;
           Estoque := Int 1;
           URL_da_Imagem := lit "http://shop.test/w.jpg";
           Situacao := lit "Ativo";
           Caminho_Imagem_Local := Some (lit "imagens_produtos/P1.jpg");
           URL_Origem_Pagina := lit "http://shop.test/p1" |}].
Proof. vm_compute. reflexivity. Qed.

(** Under a complete outage every row still gives its result. *)
Example outage_run :
  fst (main_loop (ext := Scenario.outage) 0 Scenario.bare_rows [] Scenario.dark)
  = Ok [{| Nome := lit "Widget";
           Descricao_Curta := SHORT_GENERATE_ERROR;
           Descricao_Longa_HTML := LONG_GENERATE_ERROR;
           Preco := Float (zero_float (Externals := Scenario.outage));
           Referencia_SKU := lit "SKU_GEN_0";
           Peso := Int 0;
           Estoque := Int 0;
           URL_da_Imagem := PLACEHOLDER_URL;
           Situacao := lit "Ativo";
           Caminho_Imagem_Local := Some NOT_FOUND;
           URL_Origem_Pagina := lit "N/D" |};
        {| Nome := lit "PRODUTO_SEM_NOME";
           Descricao_Curta := SHORT_GENERATE_ERROR;
           Descricao_Longa_HTML := LONG_GENERATE_ERROR;
           Preco := Float (zero_float (Externals := Scenario.outage));
           Referencia_SKU := lit "SKU_GEN_1";
           Peso := Int 0;
           Estoque := Int 3;
           URL_da_Imagem := PLACEHOLDER_URL;
           Situacao := lit "Ativo";
           Caminho_Imagem_Local := Some NOT_FOUND;
           URL_Origem_Pagina := lit "N/D" |}].
Proof. vm_compute. reflexivity. Qed.

(** ** Facts about the trace *)

Section TraceFacts.
Context {ext : Externals}.

Lemma count_app (p : Event -> bool) (a b : list Event) :
  count p (a ++ b) = count p a + count p b.
Proof. unfold count. rewrite filter_app, length_app. reflexivity. Qed.

Lemma quiet_refl (p : Event -> bool) (st : State) : quiet p st st.
Proof. exists []. rewrite app_nil_r. split; reflexivity. Qed.

Lemma quiet_trans (p : Event -> bool) (a b c : State) :
  quiet p a b -> quiet p b c -> quiet p a c.
Proof.
  intros [e1 [H1 C1]] [e2 [H2 C2]]. exists (e1 ++ e2). split.
  - rewrite H2, H1, app_assoc. reflexivity.
  - rewrite count_app, C1, C2. reflexivity.
Qed.

Lemma quiet_log (p : Event -> bool) (ev : Event) (st : State) :
  p ev = false -> quiet p st (log ev st).
Proof.
  intros H. exists [ev]. split; [reflexivity|].
  unfold count. simpl. rewrite H. reflexivity.
Qed.

Lemma Quiet_ret {A} (p : Event -> bool) (a : A) : Quiet p (ret a).
Proof. intros st r st' H. injection H as _ <-. apply quiet_refl. Qed.

Lemma Quiet_raise {A} (p : Event -> bool) (e : exn) : Quiet p (raise (A := A) e).
Proof. intros st r st' H. injection H as _ <-. apply quiet_refl. Qed.

Lemma Quiet_lift {A} (p : Event -> bool) (x : result A) : Quiet p (lift x).
Proof. intros st r st' H. injection H as _ <-. apply quiet_refl. Qed.

Lemma Quiet_emit (p : Event -> bool) (ev : Event) : p ev = false -> Quiet p (emit ev).
Proof. intros Hp st r st' H. injection H as _ <-. apply quiet_log. exact Hp. Qed.

Lemma Quiet_call {A} (p : Event -> bool) (ev : Event) (f : World -> result A * World) :
  p ev = false -> Quiet p (call ev f).
Proof.
  intros Hp st r st' H. unfold call in H.
  destruct (f (world st)) as [x w]. injection H as _ <-.
  exists [ev]. split; [reflexivity|]. unfold count. simpl. rewrite Hp. reflexivity.
Qed.

Lemma Quiet_bind {A B} (p : Event -> bool) (m : M A) (k : A -> M B) :
  Quiet p m -> (forall a, Quiet p (k a)) -> Quiet p (bind m k).
Proof.
  intros Hm Hk st r st' H. unfold bind in H.
  destruct (m st) as [[a|e] st1] eqn:E.
  - eapply quiet_trans; [eapply Hm; exact E | eapply Hk; exact H].
  - injection H as _ <-. eapply Hm. exact E.
Qed.

Lemma Quiet_try {A} (p : Event -> bool) (m : M A) (h : exn -> M A) :
  Quiet p m -> (forall e, Quiet p (h e)) -> Quiet p (try_except m h).
Proof.
  intros Hm Hh st r st' H. unfold try_except in H.
  destruct (m st) as [[a|e] st1] eqn:E.
  - injection H as _ <-. eapply Hm. exact E.
  - eapply quiet_trans; [eapply Hm; exact E | eapply Hh; exact H].
Qed.

Lemma offline_is_get : offline is_get.
Proof. repeat split. Qed.

Lemma offline_is_parse : offline is_parse.
Proof. repeat split. Qed.

Lemma offline_is_file_write : offline is_file_write.
Proof. repeat split. Qed.

End TraceFacts.

(** One step of a proof that a computation is [Quiet]. *)
Ltac quiet_step :=
  first
    [ apply Quiet_ret | apply Quiet_raise | apply Quiet_lift
    | apply Quiet_emit | apply Quiet_call
    | apply Quiet_bind; [|intros ?] | apply Quiet_try; [|intros ?] ].

(** Closes a goal [exists r st', m st = (Ok r, st')] once [m st] has
    been computed. *)
Ltac returns_ok := simpl; do 2 eexists; reflexivity.

(** ** Facts about the functions *)

Section PipelineFacts.
Context {ext : Externals}.

Lemma first_link_Quiet (p : Event -> bool) (r : SearchResult) : Quiet p (first_link r).
Proof.
  unfold first_link. destruct (items r) as [[|item l]|]; try quiet_step.
  destruct (link item); quiet_step.
Qed.

Lemma search_product_page_url_Quiet (p : Event -> bool) (q cx : str) :
  offline p -> Quiet p (search_product_page_url q cx).
Proof.
  intros (Hw & Hc & _). unfold search_product_page_url, tqdm_write.
  quiet_step.
  - repeat quiet_step; auto using first_link_Quiet.
  - destruct e as [status msg|msg|msg]; [destruct (status =? 429)%Z|..];
      repeat quiet_step; auto.
Qed.

Lemma search_google_images_Quiet (p : Event -> bool) (q cx : str) :
  offline p -> Quiet p (search_google_images q cx).
Proof.
  intros (Hw & Hc & _). unfold search_google_images, tqdm_write.
  quiet_step; [quiet_step; auto|]. quiet_step.
  - quiet_step; [quiet_step; auto|].
    quiet_step; [apply first_link_Quiet|].
    match goal with |- Quiet _ (match ?x with _ => _ end) => destruct x end;
      repeat quiet_step; auto.
  - repeat quiet_step; auto.
Qed.

Lemma generate_ai_descriptions_Quiet (p : Event -> bool) (name : str) :
  offline p -> Quiet p (generate_ai_descriptions name).
Proof.
  intros (Hw & _ & Hg & _). unfold generate_ai_descriptions, tqdm_write.
  quiet_step.
  - repeat quiet_step; auto.
  - destruct (contains (lit "quota") (lower (exn_str e))); repeat quiet_step; auto.
Qed.

(** *** No exception leaves a function *)

Lemma first_link_cases (r : SearchResult) (st : State) :
  (exists u, first_link r st = (Ok u, st)) \/
  (exists e, first_link r st = (Raise e, st)).
Proof.
  unfold first_link. destruct (items r) as [[|item l]|].
  - left. eexists. reflexivity.
  - destruct (link item).
    + left. eexists. reflexivity.
    + right. eexists. reflexivity.
  - left. eexists. reflexivity.
Qed.

Lemma search_product_page_url_total (q cx : str) (st : State) :
  exists r st', search_product_page_url q cx st = (Ok r, st').
Proof.
  unfold search_product_page_url, try_except, bind, call, tqdm_write, emit.
  destruct (cse_execute (world st) q cx false) as [[r|e] w].
  - match goal with |- context [first_link r ?s] =>
      destruct (first_link_cases r s) as [[u ->]|[e ->]] end.
    + returns_ok.
    + destruct e as [status msg|msg|msg]; [destruct (status =? 429)%Z|..]; returns_ok.
  - destruct e as [status msg|msg|msg]; [destruct (status =? 429)%Z|..]; returns_ok.
Qed.

Lemma search_google_images_total (q cx : str) (st : State) :
  exists r st', search_google_images q cx st = (Ok r, st').
Proof.
  unfold search_google_images, try_except, bind, call, tqdm_write, emit. simpl.
  destruct (cse_execute (world st) q cx true) as [[r|e] w].
  - match goal with |- context [first_link r ?s] =>
      destruct (first_link_cases r s) as [[u ->]|[e ->]] end.
    + destruct u; returns_ok.
    + returns_ok.
  - returns_ok.
Qed.

Lemma extract_image_url_total (page_url : option str) (q cx : str) (st : State) :
  exists r st', extract_image_url page_url q cx st = (Ok r, st').
Proof.
  unfold extract_image_url. destruct page_url as [[|c u]|];
    try apply search_google_images_total.
  unfold bind, try_except.
  destruct (scrape (c :: u) st) as [[[url|]|e] st1].
  - returns_ok.
  - apply search_google_images_total.
  - simpl. apply search_google_images_total.
Qed.

Lemma download_image_total (image_url : option str) (sku : str) (st : State) :
  exists r st', download_image image_url sku st = (Ok r, st').
Proof.
  unfold download_image. destruct image_url as [url|]; [|returns_ok].
  match goal with |- context [if ?b then _ else _] => destruct b end;
    [returns_ok|].
  unfold try_except.
  match goal with |- context [match ?m st with _ => _ end] =>
    destruct (m st) as [[a|e] st1] end; returns_ok.
Qed.

Lemma generate_ai_descriptions_total (name : str) (st : State) :
  exists d st', generate_ai_descriptions name st = (Ok d, st').
Proof.
  unfold generate_ai_descriptions, try_except.
  match goal with |- context [match ?m st with _ => _ end] =>
    destruct (m st) as [[a|e] st1] end; [returns_ok|].
  unfold bind, tqdm_write, emit, ret.
  destruct (contains (lit "quota") (lower (exn_str e))); returns_ok.
Qed.

(** *** The loop body, step by step *)

Lemma process_steps (index : nat) (row : Row) (processed : list EnrichmentResult)
      (st st1 st2 st4 st5 : State) (page found local : option str) (d : Descriptions) :
  search_product_page_url (name_of row) CSE_ID
    (log (EvWrite (MsgProcessing (name_of row))) st) = (Ok page, st1) ->
  extract_image_url page (name_of row) CSE_ID st1 = (Ok found, st2) ->
  download_image (Some (chosen_image found)) (sku_of index row) (after_choice found st2)
    = (Ok local, st4) ->
  generate_ai_descriptions (name_of row) st4 = (Ok d, st5) ->
  process index row processed st =
  (Ok (processed ++
       [{| Nome := name_of row;
           Descricao_Curta := short d;
           Descricao_Longa_HTML := long_html d;
           Preco := row_get (row_price row) (Float zero_float);
           Referencia_SKU := sku_of index row;
           Peso := Int 0;
           Estoque := row_get (row_qty row) (Int 0);
           URL_da_Imagem := image_column (chosen_image found);
           Situacao := lit "Ativo";
           Caminho_Imagem_Local := local;
           URL_Origem_Pagina := page_column page |}]),
   log (EvSleep 1) st5).
Proof.
  intros H1 H2 H3 H4.
  unfold process, bind, tqdm_write, sleep, emit.
  fold (name_of row). fold (sku_of index row).
  rewrite H1, H2.
  destruct found as [[|c u]|]; cbn [chosen_image after_choice] in H3;
    unfold ret at 1; unfold bind, emit; cbv beta iota;
    rewrite H3, H4; reflexivity.
Qed.

Lemma process_total (index : nat) (row : Row) (processed : list EnrichmentResult)
      (st : State) :
  exists r st',
    process index row processed st = (Ok (processed ++ [r]), st') /\
    made_from index row r.
Proof.
  destruct (search_product_page_url_total (name_of row) CSE_ID
              (log (EvWrite (MsgProcessing (name_of row))) st)) as (page & st1 & H1).
  destruct (extract_image_url_total page (name_of row) CSE_ID st1) as (found & st2 & H2).
  destruct (download_image_total (Some (chosen_image found)) (sku_of index row)
              (after_choice found st2)) as (local & st4 & H3).
  destruct (generate_ai_descriptions_total (name_of row) st4) as (d & st5 & H4).
  do 2 eexists. split.
  - eapply process_steps; eassumption.
  - repeat split.
Qed.

Lemma main_loop_total (rows : list Row) :
  forall index processed st,
  exists out st',
    main_loop index rows processed st = (Ok (processed ++ out), st') /\
    List.length out = List.length rows /\
    Forall2 (fun ir r => made_from (fst ir) (snd ir) r) (indexed index rows) out.
Proof.
  induction rows as [|row rest IH]; intros index processed st.
  - exists [], st. rewrite app_nil_r. repeat split. constructor.
  - destruct (process_total index row processed st) as (r & st1 & Hp & Hr).
    destruct (IH (S index) (processed ++ [r]) st1) as (out & st' & Hl & Hn & Hf).
    exists (r :: out), st'. split; [|split].
    + simpl. unfold bind. rewrite Hp, Hl, <- app_assoc. reflexivity.
    + simpl. rewrite Hn. reflexivity.
    + unfold indexed. simpl. constructor; [exact Hr | exact Hf].
Qed.

(** *** The image search, event by event *)

Lemma count_writes (p : Event -> bool) (msgs : list Message) :
  (forall m, p (EvWrite m) = false) -> count p (List.map EvWrite msgs) = 0.
Proof.
  intros H. unfold count. induction msgs as [|m msgs IH]; simpl.
  - reflexivity.
  - rewrite H. exact IH.
Qed.

Lemma search_google_images_trace (q cx : str) (st : State) :
  exists r st' msgs,
    search_google_images q cx st = (Ok r, st') /\
    trace st' = trace st ++ EvWrite MsgFinalAttempt :: EvCseList q cx true
                              :: List.map EvWrite msgs.
Proof.
  unfold search_google_images, try_except, bind, call, tqdm_write, emit. simpl.
  destruct (cse_execute (world st) q cx true) as [[r|e] w].
  - match goal with |- context [first_link r ?s] =>
      destruct (first_link_cases r s) as [[u ->]|[e ->]] end.
    + destruct u as [u|].
      * eexists; eexists; exists [MsgImageFound u]. split; [reflexivity|].
        simpl. rewrite <- !app_assoc. reflexivity.
      * eexists; eexists; exists []. split; [reflexivity|].
        simpl. rewrite <- !app_assoc. reflexivity.
    + eexists; eexists; exists [MsgImageSearchError e]. split; [reflexivity|].
      simpl. rewrite <- !app_assoc. reflexivity.
  - eexists; eexists; exists [MsgImageSearchError e]. split; [reflexivity|].
    simpl. rewrite <- !app_assoc. reflexivity.
Qed.

(** *** The two sections of a response *)

Lemma parse_sections_missing (raw : str) :
  contains short_desc_marker raw = false \/ contains long_desc_marker raw = false ->
  parse_sections (strip raw) =
  {| short := SHORT_EXTRACT_ERROR; long_html := LONG_EXTRACT_ERROR |}.
Proof.
  intros H. unfold parse_sections.
  destruct (contains short_desc_marker (strip raw)) eqn:Es;
    destruct (contains long_desc_marker (strip raw)) eqn:El; try reflexivity.
  apply contains_strip in Es. apply contains_strip in El.
  destruct H as [H|H]; congruence.
Qed.

Lemma contains_found (m t : str) :
  contains m t = true -> exists i, index_of m t = Some i.
Proof.
  rewrite contains_index_of. destruct (index_of m t) as [i|]; [eauto|discriminate].
Qed.

Lemma parse_sections_reversed (raw : str) :
  contains short_desc_marker raw = true ->
  contains long_desc_marker raw = true ->
  (find long_desc_marker raw < find short_desc_marker raw)%Z ->
  parse_sections (strip raw) =
  {| short := [];
     long_html := strip (slice_from raw (find long_desc_marker raw
                                         + len long_desc_marker)) |}.
Proof.
  intros Hs Hl Hlt.
  assert (starts_nonspace short_desc_marker = true) as Ss by reflexivity.
  assert (ends_nonspace short_desc_marker = true) as Es by reflexivity.
  assert (starts_nonspace long_desc_marker = true) as Sl by reflexivity.
  assert (ends_nonspace long_desc_marker = true) as El by reflexivity.
  remember short_desc_marker as sm eqn:Esm.
  remember long_desc_marker as lm eqn:Elm.
  destruct (strip_split raw) as (ws1 & ws2 & Hraw & H1 & H2).
  remember (strip raw) as t eqn:Et.
  destruct (contains_found _ _ Hs) as [a Ha].
  destruct (contains_found _ _ Hl) as [b Hb].
  pose proof (index_of_fits _ _ Hb) as Hbfit.
  unfold find in Hlt |- *. rewrite Ha, Hb in Hlt. rewrite Hb.
  rewrite Hraw in Ha, Hb.
  rewrite (index_of_between sm t ws1 ws2 Ss Es H1 H2) in Ha.
  rewrite (index_of_between lm t ws1 ws2 Sl El H1 H2) in Hb.
  destruct (index_of sm t) as [a'|] eqn:Ha'; [|discriminate].
  destruct (index_of lm t) as [b'|] eqn:Hb'; [|discriminate].
  simpl in Ha, Hb. injection Ha as Ha. injection Hb as Hb.
  pose proof (index_of_fits _ _ Hb') as Hfit.
  unfold parse_sections. rewrite <- Esm, <- Elm.
  rewrite !contains_index_of, Ha', Hb'. simpl andb. cbv iota.
  unfold find. rewrite Ha', Hb'. f_equal.
  - unfold slice.
    assert (clamp (len t) (Z.of_nat b')
            <= clamp (len t) (Z.of_nat a' + len sm))%nat as Hc.
    { apply clamp_mono; unfold len; lia. }
    replace (clamp (len t) (Z.of_nat b')
             - clamp (len t) (Z.of_nat a' + len sm))%nat with 0%nat by lia.
    reflexivity.
  - unfold slice_from, len.
    rewrite <- !Nat2Z.inj_add.
    rewrite (clamp_inside (n := List.length t)) by lia.
    rewrite (clamp_inside (n := List.length raw)) by lia.
    subst b. rewrite Hraw. rewrite <- Nat.add_assoc.
    rewrite skipn_between by lia.
    rewrite strip_app_space by exact H2. reflexivity.
Qed.

(** *** The page, once fetched and parsed *)

Lemma scrape_fetched (page_url : str) (st : State) (resp : Response) (w : World)
      (soup : Soup) :
  requests_get (world st) page_url false = (Ok resp, w) ->
  (400 <=? status_code resp)%Z && (status_code resp <? 600)%Z = false ->
  BeautifulSoup (text resp) = Ok soup ->
  scrape page_url st =
  pick_image page_url soup
    {| world := w; trace := trace st ++ [EvGet page_url false; EvSoup (text resp)] |}.
Proof.
  intros Hget Hstatus Hsoup.
  unfold scrape, bind, call, raise_for_status, emit, lift, log.
  rewrite Hget, Hstatus. cbn [ret world trace]. rewrite Hsoup.
  rewrite <- app_assoc. reflexivity.
Qed.

Lemma candidate_urls_clean (page_url : str) (imgs : list Tag) :
  forall urls,
    candidate_urls page_url imgs = Ok urls ->
    Forall (fun u => blocklisted u = false) urls.
Proof.
  induction imgs as [|img rest IH]; intros urls H.
  - injection H as <-. constructor.
  - simpl in H.
    destruct (or_else (get img (lit "data-zoom"))
                (or_else (get img (lit "data-src")) (get img (lit "src"))))
      as [[|c s]|]; try (apply IH; exact H).
    destruct (urljoin page_url (c :: s)) as [src|e]; [|discriminate].
    destruct (blocklisted src) eqn:Eb; [apply IH; exact H|].
    destruct (candidate_urls page_url rest) as [urls'|e]; [|discriminate].
    injection H as <-. constructor; [exact Eb | apply IH; reflexivity].
Qed.

Lemma choose_in (urls : list str) (u : str) : choose urls = Some u -> In u urls.
Proof.
  unfold choose. destruct (List.find is_zoom_or_large urls) as [v|] eqn:E.
  - intros H. injection H as <-. apply (find_some _ _ E).
  - destruct urls as [|v urls]; intros H; [discriminate|].
    injection H as <-. left. reflexivity.
Qed.

Lemma choose_none (urls : list str) : choose urls = None -> urls = [].
Proof.
  unfold choose. destruct (List.find is_zoom_or_large urls); [discriminate|].
  destruct urls; [reflexivity | discriminate].
Qed.

Lemma no_zoom_element (soup : Soup) :
  (forall t, In t soup -> is_named (lit "img") t = true ->
             has_class GALLERY_CLASS t = true ->
             truthy (get t (lit "data-zoom")) = false) ->
  truthy (and_get (soup_find soup (lit "img") (has_class GALLERY_CLASS))
            (lit "data-zoom")) = false.
Proof.
  intros H. unfold soup_find.
  destruct (List.find _ soup) as [t|] eqn:E; [|reflexivity].
  apply find_some in E. destruct E as [Hin Ht].
  apply andb_prop in Ht. destruct Ht as [Hn Hc].
  simpl. apply H; assumption.
Qed.

(** *** The download guard and the rest of the loop body *)

Lemma download_image_marked (s sku : str) (st : State) :
  is_failure_marker s = true ->
  download_image (Some s) sku st = (Ok (Some s), st).
Proof.
  intros H. unfold download_image. unfold is_failure_marker in H.
  rewrite <- orb_assoc, H, orb_true_r. reflexivity.
Qed.

Lemma process_marked (index : nat) (row : Row) (processed : list EnrichmentResult)
      (st st1 st2 : State) (page found : option str) :
  search_product_page_url (name_of row) CSE_ID
    (log (EvWrite (MsgProcessing (name_of row))) st) = (Ok page, st1) ->
  extract_image_url page (name_of row) CSE_ID st1 = (Ok found, st2) ->
  is_failure_marker (chosen_image found) = true ->
  exists r st',
    process index row processed st = (Ok (processed ++ [r]), st') /\
    Caminho_Imagem_Local r = Some (chosen_image found) /\
    URL_da_Imagem r = image_column (chosen_image found) /\
    forall p, offline p -> quiet p (after_choice found st2) st'.
Proof.
  intros H1 H2 Hm.
  destruct (generate_ai_descriptions_total (name_of row) (after_choice found st2))
    as (d & st5 & H4).
  do 2 eexists. split; [|split; [|split]].
  - eapply process_steps; [exact H1 | exact H2 | | exact H4].
    apply download_image_marked. exact Hm.
  - reflexivity.
  - reflexivity.
  - intros p Hp. eapply quiet_trans.
    + eapply generate_ai_descriptions_Quiet; [exact Hp | exact H4].
    + apply quiet_log. apply Hp.
Qed.

End PipelineFacts.

(** ** The claims *)

Section Claims.
Context {ext : Externals}.

(** C1. Whatever the outside world answers, the body of the loop returns
    without an exception and appends exactly one result, made from its
    row; the loop over a batch therefore returns one result per row, in
    the order of the rows. *)
Theorem enrichment_total :
  (forall index row processed st,
     exists r st',
       process index row processed st = (Ok (processed ++ [r]), st') /\
       made_from index row r) /\
  (forall rows index processed st,
     exists out st',
       main_loop index rows processed st = (Ok (processed ++ out), st') /\
       List.length out = List.length rows /\
       Forall2 (fun ir r => made_from (fst ir) (snd ir) r) (indexed index rows) out).
Proof.
  split.
  - apply process_total.
  - intros rows. apply main_loop_total.
Qed.

(** C4. With no page ([None]), [extract_image_url] is the image search
    and nothing else: it returns what [search_google_images] returns,
    and the events it leaves hold exactly one image search, no page
    fetch and no page parsing. *)
Theorem no_page_falls_back :
  forall q cx st,
    extract_image_url None q cx st = search_google_images q cx st /\
    exists r st' evs,
      extract_image_url None q cx st = (Ok r, st') /\
      trace st' = trace st ++ evs /\
      count is_image_search evs = 1 /\
      count is_get evs = 0 /\
      count is_parse evs = 0.
Proof.
  intros q cx st. split; [reflexivity|].
  destruct (search_google_images_trace q cx st) as (r & st' & msgs & H & Ht).
  exists r, st'. eexists. split; [exact H|]. split; [exact Ht|].
  change (EvWrite MsgFinalAttempt :: EvCseList q cx true :: List.map EvWrite msgs)
    with ([EvWrite MsgFinalAttempt; EvCseList q cx true] ++ List.map EvWrite msgs).
  rewrite !count_app, !count_writes by reflexivity.
  repeat split.
Qed.

(** C6. Given [None], or a string that holds a failure marker,
    [download_image] returns its argument as it is and leaves the state
    untouched: no request is issued and no file is written. *)
Theorem download_pass_through :
  forall image_url sku st,
    image_url = None \/
    (exists s, image_url = Some s /\ is_failure_marker s = true) ->
    download_image image_url sku st = (Ok image_url, st).
Proof.
  intros image_url sku st [->|[s [-> H]]].
  - reflexivity.
  - unfold download_image. unfold is_failure_marker in H.
    rewrite <- orb_assoc, H, orb_true_r. reflexivity.
Qed.

(** C9. A URL whose lower-case form holds "erro" or "não encontrada",
    a genuine image URL included, comes back from [download_image] as
    the local path, and the state is untouched: the download is never
    attempted. *)
Theorem marked_url_not_downloaded :
  forall s sku st,
    contains (lit "erro") (lower s) = true \/
    contains (lit "não encontrada") (lower s) = true ->
    download_image (Some s) sku st = (Ok (Some s), st).
Proof.
  intros s sku st H. unfold download_image.
  destruct H as [H|H]; rewrite H; rewrite ?orb_true_r; reflexivity.
Qed.

(** C7. When the model answers and its text lacks one of the two section
    markers, [generate_ai_descriptions] returns both extraction-error
    placeholders, and returns them normally. *)
Theorem missing_marker_placeholders :
  forall name st raw w,
    generate_content (world st) (lit "gemini-1.5-flash") (prompt name) = (Ok raw, w) ->
    contains short_desc_marker raw = false \/ contains long_desc_marker raw = false ->
    generate_ai_descriptions name st =
    (Ok {| short := SHORT_EXTRACT_ERROR; long_html := LONG_EXTRACT_ERROR |},
     {| world := w;
        trace := trace st ++ [EvGenerate (lit "gemini-1.5-flash") (prompt name)] |}).
Proof.
  intros name st raw w Hg H.
  unfold generate_ai_descriptions, try_except, bind, call. rewrite Hg.
  unfold ret. rewrite (parse_sections_missing raw H). reflexivity.
Qed.

(** C10. When the model's text holds both markers and the long one comes
    first, the short description is the empty string and the long one is
    the stripped text after the first long marker. *)
Theorem reversed_markers_empty_short :
  forall name st raw w,
    generate_content (world st) (lit "gemini-1.5-flash") (prompt name) = (Ok raw, w) ->
    contains short_desc_marker raw = true ->
    contains long_desc_marker raw = true ->
    (find long_desc_marker raw < find short_desc_marker raw)%Z ->
    generate_ai_descriptions name st =
    (Ok {| short := [];
           long_html := strip (slice_from raw (find long_desc_marker raw
                                               + len long_desc_marker)) |},
     {| world := w;
        trace := trace st ++ [EvGenerate (lit "gemini-1.5-flash") (prompt name)] |}).
Proof.
  intros name st raw w Hg Hs Hl Hlt.
  unfold generate_ai_descriptions, try_except, bind, call. rewrite Hg.
  unfold ret. rewrite (parse_sections_reversed raw Hs Hl Hlt). reflexivity.
Qed.

(** C8. When the page search returns no page and the image search
    returns nothing, the result carries the placeholder image URL and
    the "not found" marker as local path, and between the start and the
    end of the loop body there is no HTTP request and no file written.
    The one fact used about [lower] is what it makes of the marker. *)
Theorem nothing_found_record :
  forall index row processed st st1 st2,
    lower NOT_FOUND = lit "imagem não encontrada" ->
    search_product_page_url (name_of row) CSE_ID
      (log (EvWrite (MsgProcessing (name_of row))) st) = (Ok None, st1) ->
    search_google_images (name_of row) CSE_ID st1 = (Ok None, st2) ->
    exists r st',
      process index row processed st = (Ok (processed ++ [r]), st') /\
      URL_da_Imagem r = PLACEHOLDER_URL /\
      Caminho_Imagem_Local r = Some NOT_FOUND /\
      quiet is_get st st' /\
      quiet is_file_write st st'.
Proof.
  intros index row processed st st1 st2 Hlow H1 H2.
  assert (is_failure_marker (chosen_image None) = true) as Hm.
  { unfold is_failure_marker, chosen_image. rewrite Hlow. reflexivity. }
  destruct (process_marked index row processed st (page := None) (found := None)
              H1 H2 Hm) as (r & st' & Hp & Hl & Hu & Hq).
  assert (forall p, offline p -> quiet p st st') as Hall.
  { intros p Hp'. eapply quiet_trans; [|eapply quiet_trans; [|eapply quiet_trans]].
    - apply (quiet_log p (EvWrite (MsgProcessing (name_of row)))). apply Hp'.
    - eapply search_product_page_url_Quiet; [exact Hp' | exact H1].
    - eapply quiet_trans.
      + eapply search_google_images_Quiet; [exact Hp' | exact H2].
      + apply (quiet_log p (EvWrite MsgNoImage)). apply Hp'.
    - apply Hq. exact Hp'. }
  exists r, st'. split; [exact Hp|]. split; [|split; [|split]].
  - rewrite Hu. reflexivity.
  - exact Hl.
  - apply Hall, offline_is_get.
  - apply Hall, offline_is_file_write.
Qed.

(** C3, as the code has it.  When the image URL the loop body holds has
    a failure marker in its lower-case form, [download_image] hands it
    back as the local path and from there to the end of the loop body
    there is no HTTP request and no file written; and when the URL
    holds "não encontrada" as written, the image column of the result
    is the placeholder. *)
Theorem sentinel_convention :
  forall index row processed st st1 st2 page found,
    search_product_page_url (name_of row) CSE_ID
      (log (EvWrite (MsgProcessing (name_of row))) st) = (Ok page, st1) ->
    extract_image_url page (name_of row) CSE_ID st1 = (Ok found, st2) ->
    is_failure_marker (chosen_image found) = true ->
    exists r st',
      process index row processed st = (Ok (processed ++ [r]), st') /\
      Caminho_Imagem_Local r = Some (chosen_image found) /\
      quiet is_get (after_choice found st2) st' /\
      quiet is_file_write (after_choice found st2) st' /\
      (contains (lit "não encontrada") (chosen_image found) = true ->
       URL_da_Imagem r = PLACEHOLDER_URL).
Proof.
  intros index row processed st st1 st2 page found H1 H2 Hm.
  destruct (process_marked index row processed st H1 H2 Hm)
    as (r & st' & Hp & Hl & Hu & Hq).
  exists r, st'. split; [exact Hp|]. split; [exact Hl|].
  split; [apply Hq, offline_is_get|]. split; [apply Hq, offline_is_file_write|].
  intros Hc. rewrite Hu. unfold image_column. rewrite Hc. reflexivity.
Qed.

(** C5, as the code has it.  On a page that was fetched and parsed, with
    no gallery image that has a zoom value, and whose first [og:image]
    meta element has a content value, [extract_image_url] returns that
    value; the only events are the fetch and the parse, so no image
    search takes place. *)
Theorem og_image_preferred :
  forall page_url q cx st resp w soup og_tag url,
    page_url <> [] ->
    requests_get (world st) page_url false = (Ok resp, w) ->
    (400 <=? status_code resp)%Z && (status_code resp <? 600)%Z = false ->
    BeautifulSoup (text resp) = Ok soup ->
    (forall t, In t soup -> is_named (lit "img") t = true ->
               has_class GALLERY_CLASS t = true ->
               truthy (get t (lit "data-zoom")) = false) ->
    soup_find soup (lit "meta") (has_attr (lit "property") (lit "og:image")) = Some og_tag ->
    get og_tag (lit "content") = Some url ->
    url <> [] ->
    extract_image_url (Some page_url) q cx st =
    (Ok (Some url),
     {| world := w; trace := trace st ++ [EvGet page_url false; EvSoup (text resp)] |}).
Proof.
  intros page_url q cx st resp w soup og_tag url Hp Hget Hst Hsoup Hzoom Hog Hc Hu.
  destruct page_url as [|c p]; [contradiction|].
  destruct url as [|a url]; [contradiction|].
  unfold extract_image_url, bind, try_except.
  rewrite (scrape_fetched (c :: p) st Hget Hst Hsoup).
  unfold pick_image. rewrite (no_zoom_element soup Hzoom), Hog.
  cbn [and_get]. rewrite Hc. reflexivity.
Qed.

(** C2, as the code has it.  On a page that was fetched and parsed and
    where neither the gallery image nor the [og:image] meta gives a
    value, every URL of [candidate_urls] is free of blocklisted tokens
    in its lower-case form; [extract_image_url] returns one of them when
    there is one, and otherwise, also when the only image of the page
    was blocklisted, it is the image search from there on. *)
Theorem generic_candidates_clean :
  forall page_url q cx st resp w soup urls,
    page_url <> [] ->
    requests_get (world st) page_url false = (Ok resp, w) ->
    (400 <=? status_code resp)%Z && (status_code resp <? 600)%Z = false ->
    BeautifulSoup (text resp) = Ok soup ->
    truthy (and_get (soup_find soup (lit "img") (has_class GALLERY_CLASS))
              (lit "data-zoom")) = false ->
    truthy (and_get (soup_find soup (lit "meta")
                       (has_attr (lit "property") (lit "og:image")))
              (lit "content")) = false ->
    candidate_urls page_url (find_all soup (lit "img")) = Ok urls ->
    let st1 := {| world := w;
                  trace := trace st ++ [EvGet page_url false; EvSoup (text resp)] |} in
    Forall (fun u => blocklisted u = false) urls /\
    match choose urls with
    | Some u =>
        extract_image_url (Some page_url) q cx st = (Ok (Some u), st1) /\
        In u urls /\ blocklisted u = false
    | None =>
        urls = [] /\
        extract_image_url (Some page_url) q cx st = search_google_images q cx st1
    end.
Proof.
  intros page_url q cx st resp w soup urls Hp Hget Hst Hsoup Hzoom Hog Hurls st1.
  pose proof (candidate_urls_clean _ _ Hurls) as Hclean.
  split; [exact Hclean|].
  destruct page_url as [|c p]; [contradiction|].
  assert (scrape (c :: p) st = (Ok (choose urls), st1)) as Hs.
  { rewrite (scrape_fetched (c :: p) st Hget Hst Hsoup).
    unfold pick_image. rewrite Hzoom, Hog.
    unfold bind, lift. rewrite Hurls. reflexivity. }
  unfold extract_image_url, bind, try_except. rewrite Hs.
  destruct (choose urls) as [u|] eqn:Ec.
  - pose proof (choose_in _ Ec) as Hin.
    split; [reflexivity|]. split; [exact Hin|].
    rewrite Forall_forall in Hclean. apply Hclean. exact Hin.
  - split; [apply choose_none; exact Ec | reflexivity].
Qed.

End Claims.

(** ** The claims on the scripted world *)

Module Runs.
Import Scenario.

Lemma download_pass_through_witness :
  is_failure_marker NOT_FOUND = true /\
  download_image (Some NOT_FOUND) (lit "P9") start = (Ok (Some NOT_FOUND), start).
Proof.
  split; [vm_compute; reflexivity|].
  apply download_pass_through. right. exists NOT_FOUND.
  split; [reflexivity | vm_compute; reflexivity].
Defined.

Lemma marked_url_not_downloaded_witness :
  download_image (Some (lit "http://shop.test/error/photo.jpg")) (lit "P5") start
  = (Ok (Some (lit "http://shop.test/error/photo.jpg")), start).
Proof.
  apply marked_url_not_downloaded. left. vm_compute. reflexivity.
Defined.

Lemma missing_marker_placeholders_witness :
  contains long_desc_marker truncated_answer = false /\
  fst (generate_ai_descriptions (lit "Gadget") start)
  = Ok {| short := SHORT_EXTRACT_ERROR; long_html := LONG_EXTRACT_ERROR |}.
Proof.
  split; [vm_compute; reflexivity|].
  rewrite (missing_marker_placeholders (lit "Gadget") start
             (raw := truncated_answer) (w := tt)).
  - reflexivity.
  - vm_compute. reflexivity.
  - right. vm_compute. reflexivity.
Defined.

Lemma reversed_markers_empty_short_witness :
  (find long_desc_marker reversed_answer < find short_desc_marker reversed_answer)%Z /\
  fst (generate_ai_descriptions (lit "Sticker") start)
  = Ok {| short := [];
          long_html := lit "<p>Um adesivo.</p>" ++ NL
                       ++ lit "[DESCRIÇÃO CURTA]" ++ NL ++ lit "Um adesivo." |}.
Proof.
  split; [vm_compute; reflexivity|].
  rewrite (reversed_markers_empty_short (lit "Sticker") start
             (raw := reversed_answer) (w := tt)).
  - vm_compute. reflexivity.
  - vm_compute. reflexivity.
  - vm_compute. reflexivity.
  - vm_compute. reflexivity.
  - vm_compute. reflexivity.
Defined.

Lemma nothing_found_record_witness :
  exists r st',
    process 0 nothing [] start = (Ok ([] ++ [r]), st') /\
    URL_da_Imagem r = PLACEHOLDER_URL /\
    Caminho_Imagem_Local r = Some NOT_FOUND /\
    quiet is_get start st' /\
    quiet is_file_write start st'.
Proof.
  eapply (nothing_found_record 0 nothing [] start).
  - vm_compute. reflexivity.
  - vm_compute. reflexivity.
  - vm_compute. reflexivity.
Defined.

Lemma sentinel_convention_witness :
  exists r st',
    process 1 nothing [] start = (Ok ([] ++ [r]), st') /\
    Caminho_Imagem_Local r = Some NOT_FOUND /\
    URL_da_Imagem r = PLACEHOLDER_URL.
Proof.
  destruct (sentinel_convention 1 nothing [] start (page := None) (found := None)
              (st1 := log (EvCseList (lit "Nada") CSE_ID false)
                        (log (EvWrite (MsgProcessing (lit "Nada"))) start))
              (st2 := log (EvCseList (lit "Nada") CSE_ID true)
                        (log (EvWrite MsgFinalAttempt)
                           (log (EvCseList (lit "Nada") CSE_ID false)
                              (log (EvWrite (MsgProcessing (lit "Nada"))) start)))))
    as (r & st' & Hp & Hl & _ & _ & Hu).
  - vm_compute. reflexivity.
  - vm_compute. reflexivity.
  - vm_compute. reflexivity.
  - exists r, st'. split; [exact Hp|]. split; [exact Hl|].
    apply Hu. vm_compute. reflexivity.
Defined.

Lemma og_image_preferred_witness :
  fst (extract_image_url (Some page1) (lit "Widget") CSE_ID start)
  = Ok (Some (lit "http://shop.test/w.jpg")).
Proof.
  rewrite (og_image_preferred (page_url := page1) (lit "Widget") CSE_ID start
             (resp := {| status_code := 200; text := markup1 |}) (w := tt)
             (soup := soup1)
             (og_tag := meta [og; (lit "content", lit "http://shop.test/w.jpg")])
             (url := lit "http://shop.test/w.jpg")).
  - reflexivity.
  - vm_compute. discriminate.
  - vm_compute. reflexivity.
  - vm_compute. reflexivity.
  - vm_compute. reflexivity.
  - intros t [<-|[<-|[]]] Hn Hc; vm_compute in Hn, Hc |- *; congruence.
  - vm_compute. reflexivity.
  - vm_compute. reflexivity.
  - vm_compute. discriminate.
Defined.

Lemma generic_candidates_clean_witness :
  candidate_urls page4 (find_all soup4 (lit "img")) = Ok [lit "http://shop.test/photo.jpg"] /\
  fst (extract_image_url (Some page4) (lit "Poster") CSE_ID start)
  = Ok (Some (lit "http://shop.test/photo.jpg")) /\
  blocklisted (lit "http://shop.test/photo.jpg") = false.
Proof.
  split; [vm_compute; reflexivity|].
  destruct (generic_candidates_clean (page_url := page4) (lit "Poster") CSE_ID start
              (resp := {| status_code := 200; text := markup4 |}) (w := tt)
              (soup := soup4) (urls := [lit "http://shop.test/photo.jpg"]))
    as [_ H].
  - vm_compute. discriminate.
  - vm_compute. reflexivity.
  - vm_compute. reflexivity.
  - vm_compute. reflexivity.
  - vm_compute. reflexivity.
  - vm_compute. reflexivity.
  - vm_compute. reflexivity.
  - change (choose [lit "http://shop.test/photo.jpg"])
      with (Some (lit "http://shop.test/photo.jpg")) in H.
    destruct H as (He & _ & Hb). split; [exact (f_equal fst He) | exact Hb].
Defined.

(** C2 as stated fails: the [og:image] value of page 3 holds "logo" and
    is returned all the same. *)
Lemma blocklisted_meta_image_returned :
  fst (extract_image_url (Some page3) (lit "Sticker") CSE_ID start)
  = Ok (Some (lit "http://shop.test/logo.png")) /\
  In (lit "logo") BLOCKLIST /\
  contains (lit "logo") (lit "http://shop.test/logo.png") = true.
Proof.
  split; [vm_compute; reflexivity|].
  split; [left; reflexivity | vm_compute; reflexivity].
Qed.

(** C5 as stated fails: page 2 has an [og:image] meta with a content
    value and no gallery image, yet the first [og:image] meta has no
    content and the URL returned is that of a plain image. *)
Lemma later_meta_image_ignored :
  fetch page2 = Ok {| status_code := 200; text := markup2 |} /\
  parse markup2 = Ok soup2 /\
  existsb (fun t => is_named (lit "meta") t
                    && has_attr (lit "property") (lit "og:image") t
                    && eqb (row_get (get t (lit "content")) [])
                         (lit "http://shop.test/g.jpg")) soup2 = true /\
  existsb (has_class GALLERY_CLASS) soup2 = false /\
  fst (extract_image_url (Some page2) (lit "Gadget") CSE_ID start)
  = Ok (Some (lit "http://shop.test/banner.jpg")) /\
  get (img [(lit "src", lit "http://shop.test/banner.jpg")]) (lit "src")
  = Some (lit "http://shop.test/banner.jpg").
Proof. repeat split; vm_compute; reflexivity. Qed.

(** C3 as stated fails: a URL that holds "erro", and one that holds the
    "not found" marker in upper case, are handed back by
    [download_image] but stay in the image column. *)
Lemma marker_without_placeholder :
  let url1 := lit "http://cdn.test/terror.jpg" in
  let url2 := lit "http://cdn.test/img?t=NÃO ENCONTRADA" in
  is_failure_marker url1 = true /\
  is_failure_marker url2 = true /\
  List.map (fun r => (Caminho_Imagem_Local r, URL_da_Imagem r))
    (match fst (main_loop 0 [row_named (lit "P7") (lit "Terror");
                             row_named (lit "P8") (lit "Aviso")] [] start) with
     | Ok out => out
     | Raise _ => []
     end)
  = [(Some url1, url1); (Some url2, url2)] /\
  url1 <> PLACEHOLDER_URL /\ url2 <> PLACEHOLDER_URL.
Proof.
  cbv zeta. split; [|split; [|split; [|split]]].
  - vm_compute. reflexivity.
  - vm_compute. reflexivity.
  - vm_compute. reflexivity.
  - intros H. vm_compute in H. discriminate H.
  - intros H. vm_compute in H. discriminate H.
Qed.

End Runs.

(** ** More about the searches *)

Section Searches.
Context {ext : Externals}.

Lemma first_link_some (r : SearchResult) (st st' : State) (u : str) :
  first_link r st = (Ok (Some u), st') <->
  (exists item rest, items r = Some (item :: rest) /\ link item = Some u) /\ st' = st.
Proof.
  unfold first_link, ret, raise.
  destruct (items r) as [[|item rest]|].
  - split; [discriminate|]. intros [(i & l & H & _) _]. discriminate.
  - destruct (link item) as [v|] eqn:El.
    + split.
      * intros H. injection H as -> ->. split; [|reflexivity].
        exists item, rest. split; [reflexivity | exact El].
      * intros [(i & l & H & Hl) ->]. injection H as <- <-.
        congruence.
    + split; [discriminate|].
      intros [(i & l & H & Hl) _]. injection H as <- <-. congruence.
  - split; [discriminate|]. intros [(i & l & H & _) _]. discriminate.
Qed.

Lemma search_product_page_url_trace :
  forall q cx st,
    exists r st' msgs,
      search_product_page_url q cx st = (Ok r, st') /\
      trace st' = trace st ++ EvCseList q cx false :: List.map EvWrite msgs /\
      List.length msgs <= 1.
Proof.
  intros q cx st.
  unfold search_product_page_url, try_except, bind, call, tqdm_write, emit, log.
  destruct (cse_execute (world st) q cx false) as [[r|e] w].
  - match goal with |- context [first_link r ?s] =>
      destruct (first_link_cases r s) as [[u ->]|[e ->]] end.
    + eexists; eexists; exists []. repeat split. simpl. lia.
    + destruct e as [status msg|msg|msg]; [destruct (status =? 429)%Z|..];
        simpl; eexists; eexists; eexists [_]; simpl;
        rewrite <- app_assoc; repeat split; simpl; lia.
  - destruct e as [status msg|msg|msg]; [destruct (status =? 429)%Z|..];
      simpl; eexists; eexists; eexists [_]; simpl;
      rewrite <- app_assoc; repeat split; simpl; lia.
Qed.

(** The page search never raises; it makes one call to the search API,
    which is not an image search, and writes at most one message. *)
Theorem page_search_single_call :
  forall q cx st,
    exists r st' msgs,
      search_product_page_url q cx st = (Ok r, st') /\
      trace st' = trace st ++ EvCseList q cx false :: List.map EvWrite msgs /\
      List.length msgs <= 1.
Proof. exact search_product_page_url_trace. Qed.

(** The page search returns a URL exactly when the search API answered
    with a non-empty list of items whose first one has a link, and the
    URL is that link; then nothing is written. *)
Theorem page_search_top_link :
  forall q cx st st' u,
    search_product_page_url q cx st = (Ok (Some u), st') <->
    exists r w item rest,
      cse_execute (world st) q cx false = (Ok r, w) /\
      items r = Some (item :: rest) /\
      link item = Some u /\
      st' = {| world := w; trace := trace st ++ [EvCseList q cx false] |}.
Proof.
  intros q cx st st' u.
  unfold search_product_page_url, try_except, bind, call, tqdm_write, emit.
  destruct (cse_execute (world st) q cx false) as [[r|e] w] eqn:Ec.
  - match goal with |- context [first_link r ?s] =>
      pose proof (first_link_some r s) as Hs;
      destruct (first_link_cases r s) as [[v Hv]|[e He]] end.
    + rewrite Hv. split.
      * intros H. injection H as -> <-.
        apply Hs in Hv. destruct Hv as [(item & rest & Hi & Hl) _].
        exists r, w, item, rest. repeat split; assumption.
      * intros (r' & w' & item & rest & Hr & Hi & Hl & ->).
        injection Hr as <- <-.
        assert (first_link r {| world := w; trace := trace st ++ [EvCseList q cx false] |}
                = (Ok (Some u), {| world := w; trace := trace st ++ [EvCseList q cx false] |}))
          as Hu by (apply first_link_some; split; [eauto | reflexivity]).
        rewrite Hu in Hv. injection Hv as <-. reflexivity.
    + rewrite He. split.
      * destruct e as [status msg|msg|msg]; [destruct (status =? 429)%Z|..];
          simpl; discriminate.
      * intros (r' & w' & item & rest & Hr & Hi & Hl & ->).
        injection Hr as <- <-.
        assert (first_link r {| world := w; trace := trace st ++ [EvCseList q cx false] |}
                = (Ok (Some u), {| world := w; trace := trace st ++ [EvCseList q cx false] |}))
          as Hu by (apply first_link_some; split; [eauto | reflexivity]).
        rewrite Hu in He. discriminate.
  - split.
    + destruct e as [status msg|msg|msg]; [destruct (status =? 429)%Z|..];
        simpl; discriminate.
    + intros (r' & w' & item & rest & Hr & _). discriminate.
Qed.


End Searches.

(** ** More about the image of a page *)

Section Images.
Context {ext : Externals}.

(** When the request for the page fails, or the page answers with a
    status from 400 to 599, the page is never parsed: the function is
    the image search from the state the request left. *)
Theorem failed_fetch_falls_back :
  forall page_url q cx st w,
    page_url <> [] ->
    (exists e, requests_get (world st) page_url false = (Raise e, w)) \/
    (exists resp,
        requests_get (world st) page_url false = (Ok resp, w) /\
        (400 <=? status_code resp)%Z && (status_code resp <? 600)%Z = true) ->
    extract_image_url (Some page_url) q cx st =
    search_google_images q cx
      {| world := w; trace := trace st ++ [EvGet page_url false] |}.
Proof.
  intros page_url q cx st w Hp H.
  destruct page_url as [|c p]; [contradiction|].
  unfold extract_image_url, bind, try_except, scrape, bind, call, raise_for_status.
  destruct H as [[e He]|[resp [He Hs]]]; rewrite He; [|rewrite Hs]; reflexivity.
Qed.

(** The zoom value of the first gallery image wins over everything else
    on the page, the [og:image] included. *)
Theorem gallery_zoom_first :
  forall page_url q cx st resp w soup img_tag zoom,
    page_url <> [] ->
    requests_get (world st) page_url false = (Ok resp, w) ->
    (400 <=? status_code resp)%Z && (status_code resp <? 600)%Z = false ->
    BeautifulSoup (text resp) = Ok soup ->
    soup_find soup (lit "img") (has_class GALLERY_CLASS) = Some img_tag ->
    get img_tag (lit "data-zoom") = Some zoom ->
    zoom <> [] ->
    extract_image_url (Some page_url) q cx st =
    (Ok (Some zoom),
     {| world := w; trace := trace st ++ [EvGet page_url false; EvSoup (text resp)] |}).
Proof.
  intros page_url q cx st resp w soup img_tag zoom Hp Hget Hst Hsoup Hf Hz Hn.
  destruct page_url as [|c p]; [contradiction|].
  destruct zoom as [|a z]; [contradiction|].
  unfold extract_image_url, bind, try_except.
  rewrite (scrape_fetched (c :: p) st Hget Hst Hsoup).
  unfold pick_image. rewrite Hf. cbn [and_get]. rewrite Hz. reflexivity.
Qed.

(** One image source that [urljoin] rejects discards every candidate,
    those found before it included: the function is the image search
    from the state after the parse. *)
Theorem rejected_src_discards_candidates :
  forall page_url q cx st resp w soup e,
    page_url <> [] ->
    requests_get (world st) page_url false = (Ok resp, w) ->
    (400 <=? status_code resp)%Z && (status_code resp <? 600)%Z = false ->
    BeautifulSoup (text resp) = Ok soup ->
    truthy (and_get (soup_find soup (lit "img") (has_class GALLERY_CLASS))
              (lit "data-zoom")) = false ->
    truthy (and_get (soup_find soup (lit "meta")
                       (has_attr (lit "property") (lit "og:image")))
              (lit "content")) = false ->
    candidate_urls page_url (find_all soup (lit "img")) = Raise e ->
    extract_image_url (Some page_url) q cx st =
    search_google_images q cx
      {| world := w; trace := trace st ++ [EvGet page_url false; EvSoup (text resp)] |}.
Proof.
  intros page_url q cx st resp w soup e Hp Hget Hst Hsoup Hzoom Hog Hurls.
  destruct page_url as [|c p]; [contradiction|].
  unfold extract_image_url, bind, try_except.
  rewrite (scrape_fetched (c :: p) st Hget Hst Hsoup).
  unfold pick_image. rewrite Hzoom, Hog.
  unfold bind, lift. rewrite Hurls. reflexivity.
Qed.

(** Every candidate is the preferred source of one of the images,
    resolved against the page, and an image gives at most one. *)
Theorem candidates_come_from_images :
  forall page_url all_imgs urls,
    candidate_urls page_url all_imgs = Ok urls ->
    Forall (fun u => exists img s,
                In img all_imgs /\ preferred_src img = Some s /\ s <> [] /\
                urljoin page_url s = Ok u) urls /\
    List.length urls <= List.length all_imgs.
Proof.
  intros page_url all_imgs. induction all_imgs as [|img rest IH]; intros urls H.
  - injection H as <-. split; [constructor | simpl; lia].
  - simpl in H. fold (preferred_src img) in H.
    assert (forall l,
               candidate_urls page_url rest = Ok l ->
               Forall (fun u => exists img' s,
                           In img' (img :: rest) /\ preferred_src img' = Some s /\
                           s <> [] /\ urljoin page_url s = Ok u) l /\
               List.length l <= List.length rest) as IH'.
    { intros l Hl. destruct (IH l Hl) as [Hf Hlen]. split; [|exact Hlen].
      eapply Forall_impl; [|exact Hf].
      intros u (i & s & Hi & Hs). exists i, s. split; [right; exact Hi | exact Hs]. }
    destruct (preferred_src img) as [[|c s]|] eqn:Ep.
    + destruct (IH' urls H) as [Hf Hlen]. split; [exact Hf | simpl; lia].
    + destruct (urljoin page_url (c :: s)) as [src|e] eqn:Eu; [|discriminate].
      destruct (blocklisted src).
      * destruct (IH' urls H) as [Hf Hlen]. split; [exact Hf | simpl; lia].
      * destruct (candidate_urls page_url rest) as [l|e]; [|discriminate].
        injection H as <-. destruct (IH' l eq_refl) as [Hf Hlen].
        split; [|simpl; lia]. constructor; [|exact Hf].
        exists img, (c :: s). repeat split; try assumption.
        -- left. reflexivity.
        -- discriminate.
    + destruct (IH' urls H) as [Hf Hlen]. split; [exact Hf | simpl; lia].
Qed.

End Images.

(** ** More about the download *)

Section Downloads.
Context {ext : Externals}.

Lemma download_guard_false (url : str) :
  url <> [] -> is_failure_marker url = false ->
  negb (truthy (Some url))
  || contains (lit "não encontrada") (lower url)
  || contains (lit "erro") (lower url) = false.
Proof.
  intros Hn Hm. destruct url as [|c u]; [contradiction|].
  unfold is_failure_marker in Hm. rewrite <- orb_assoc, Hm. reflexivity.
Qed.

(** A URL without a failure marker whose request, directory creation
    and write all succeed is saved in the image folder under the SKU,
    with the extension of the URL's path, or [.jpg] when it has none;
    the three calls happen in this order. *)
Theorem download_saves_under_sku :
  forall url sku st resp w1 path w2 w3,
    url <> [] ->
    is_failure_marker url = false ->
    requests_get (world st) url true = (Ok resp, w1) ->
    (400 <=? status_code resp)%Z && (status_code resp <? 600)%Z = false ->
    urlparse_path url = Ok path ->
    makedirs w1 IMAGE_FOLDER = (Ok tt, w2) ->
    save_body w2 (path_join IMAGE_FOLDER (sku ++ image_ext path)) resp = (Ok tt, w3) ->
    download_image (Some url) sku st =
    (Ok (Some (path_join IMAGE_FOLDER (sku ++ image_ext path))),
     {| world := w3;
        trace := trace st ++ [EvGet url true; EvMakedirs IMAGE_FOLDER;
                              EvSaveFile (path_join IMAGE_FOLDER (sku ++ image_ext path))] |}).
Proof.
  intros url sku st resp w1 path w2 w3 Hn Hm Hget Hst Hpath Hmk Hsave.
  unfold download_image.
  match goal with |- context [if ?b then _ else _] =>
    replace b with false by (symmetry; apply download_guard_false; assumption) end.
  unfold try_except, bind, call, raise_for_status, lift.
  rewrite Hget, Hst. cbn [ret world trace]. rewrite Hpath.
  fold (image_ext path). rewrite Hmk. cbn [world trace]. rewrite Hsave.
  rewrite <- !app_assoc. reflexivity.
Qed.

Lemma download_request_failed :
  forall url sku st w,
    url <> [] ->
    is_failure_marker url = false ->
    (exists e, requests_get (world st) url true = (Raise e, w)) \/
    (exists resp,
        requests_get (world st) url true = (Ok resp, w) /\
        (400 <=? status_code resp)%Z && (status_code resp <? 600)%Z = true) ->
    download_image (Some url) sku st =
    (Ok (Some DOWNLOAD_ERROR), {| world := w; trace := trace st ++ [EvGet url true] |}).
Proof.
  intros url sku st w Hn Hm H.
  unfold download_image.
  match goal with |- context [if ?b then _ else _] =>
    replace b with false by (symmetry; apply download_guard_false; assumption) end.
  unfold try_except, bind, call, raise_for_status.
  destruct H as [[e He]|[resp [He Hs]]]; rewrite He; [|rewrite Hs]; reflexivity.
Qed.

(** When the request fails, or answers with a status from 400 to 599,
    the result is the download-error marker and the file system is not
    touched. *)
Theorem failed_request_no_file :
  forall url sku st w,
    url <> [] ->
    is_failure_marker url = false ->
    (exists e, requests_get (world st) url true = (Raise e, w)) \/
    (exists resp,
        requests_get (world st) url true = (Ok resp, w) /\
        (400 <=? status_code resp)%Z && (status_code resp <? 600)%Z = true) ->
    download_image (Some url) sku st =
    (Ok (Some DOWNLOAD_ERROR), {| world := w; trace := trace st ++ [EvGet url true] |}).
Proof. exact download_request_failed. Qed.

Lemma download_image_trace :
  forall url sku st,
    exists r st' evs,
      download_image (Some url) sku st = (Ok (Some r), st') /\
      trace st' = trace st ++ evs /\
      download_events url evs /\
      ((r = url /\ st' = st) \/
       r = DOWNLOAD_ERROR \/
       exists path,
         r = path_join IMAGE_FOLDER (sku ++ image_ext path) /\
         evs = [EvGet url true; EvMakedirs IMAGE_FOLDER; EvSaveFile r]).
Proof.
  intros url sku st. unfold download_image.
  match goal with |- context [if ?b then _ else _] => destruct b end.
  - exists url, st, []. rewrite app_nil_r.
    split; [reflexivity|]. split; [reflexivity|].
    split; [left; reflexivity | left; split; reflexivity].
  - unfold try_except, bind, call, raise_for_status, lift.
    destruct (requests_get (world st) url true) as [[resp|e] w1].
    2:{ eexists; eexists; exists [EvGet url true]. cbn.
        repeat split; [right; left; reflexivity | right; left; reflexivity]. }
    destruct ((400 <=? status_code resp)%Z && (status_code resp <? 600)%Z).
    { eexists; eexists; exists [EvGet url true]. cbn.
      repeat split; [right; left; reflexivity | right; left; reflexivity]. }
    cbn [ret world trace].
    destruct (urlparse_path url) as [path|e].
    2:{ eexists; eexists; exists [EvGet url true]. cbn.
        repeat split; [right; left; reflexivity | right; left; reflexivity]. }
    fold (image_ext path).
    destruct (makedirs w1 IMAGE_FOLDER) as [[[]|e] w2]; cbn [world trace].
    2:{ eexists; eexists; exists [EvGet url true; EvMakedirs IMAGE_FOLDER]. cbn.
        rewrite <- !app_assoc.
        repeat split; [right; right; left; reflexivity | right; left; reflexivity]. }
    destruct (save_body w2 (path_join IMAGE_FOLDER (sku ++ image_ext path)) resp)
      as [[[]|e] w3].
    + eexists; eexists;
        exists [EvGet url true; EvMakedirs IMAGE_FOLDER;
                EvSaveFile (path_join IMAGE_FOLDER (sku ++ image_ext path))].
      cbn. rewrite <- !app_assoc. repeat split.
      * right; right; right. eexists. reflexivity.
      * right; right. exists path. split; reflexivity.
    + eexists; eexists;
        exists [EvGet url true; EvMakedirs IMAGE_FOLDER;
                EvSaveFile (path_join IMAGE_FOLDER (sku ++ image_ext path))].
      cbn. rewrite <- !app_assoc. repeat split.
      * right; right; right. eexists. reflexivity.
      * right; left. reflexivity.
Qed.


End Downloads.

(** ** More about the descriptions *)

Section Sections.
Context {ext : Externals}.

Lemma firstn_between (n j : nat) (t ws : str) :
  (j + n <= List.length t)%nat ->
  firstn n (skipn j t ++ ws) = firstn n (skipn j t).
Proof.
  intros H. rewrite firstn_app.
  replace (n - List.length (skipn j t))%nat with 0%nat
    by (rewrite length_skipn; lia).
  simpl. apply app_nil_r.
Qed.

Lemma parse_sections_raw (raw : str) :
  contains short_desc_marker raw = true ->
  contains long_desc_marker raw = true ->
  parse_sections (strip raw) =
  {| short := strip (slice raw (find short_desc_marker raw + len short_desc_marker)
                       (find long_desc_marker raw));
     long_html := strip (slice_from raw (find long_desc_marker raw
                                         + len long_desc_marker)) |}.
Proof.
  intros Hs Hl.
  assert (starts_nonspace short_desc_marker = true) as Ss by reflexivity.
  assert (ends_nonspace short_desc_marker = true) as Es by reflexivity.
  assert (starts_nonspace long_desc_marker = true) as Sl by reflexivity.
  assert (ends_nonspace long_desc_marker = true) as El by reflexivity.
  remember short_desc_marker as sm eqn:Esm.
  remember long_desc_marker as lm eqn:Elm.
  destruct (strip_split raw) as (ws1 & ws2 & Hraw & H1 & H2).
  remember (strip raw) as t eqn:Et.
  destruct (contains_found _ _ Hs) as [a Ha].
  destruct (contains_found _ _ Hl) as [b Hb].
  pose proof (index_of_fits _ _ Ha) as Hafit.
  pose proof (index_of_fits _ _ Hb) as Hbfit.
  unfold find. rewrite Ha, Hb.
  rewrite Hraw in Ha, Hb.
  rewrite (index_of_between sm t ws1 ws2 Ss Es H1 H2) in Ha.
  rewrite (index_of_between lm t ws1 ws2 Sl El H1 H2) in Hb.
  destruct (index_of sm t) as [a'|] eqn:Ha'; [|discriminate].
  destruct (index_of lm t) as [b'|] eqn:Hb'; [|discriminate].
  simpl in Ha, Hb. injection Ha as Ha. injection Hb as Hb.
  pose proof (index_of_fits _ _ Ha') as Hafit'.
  pose proof (index_of_fits _ _ Hb') as Hbfit'.
  unfold parse_sections. rewrite <- Esm, <- Elm.
  rewrite !contains_index_of, Ha', Hb'. simpl andb. cbv iota.
  unfold find. rewrite Ha', Hb'. subst a b. f_equal.
  - f_equal. unfold slice, len. rewrite <- !Nat2Z.inj_add.
    rewrite !(clamp_inside (n := List.length t)) by lia.
    rewrite !(clamp_inside (n := List.length raw)) by lia.
    rewrite Hraw. rewrite <- Nat.add_assoc. rewrite skipn_between by lia.
    replace (List.length ws1 + b' - (List.length ws1 + (a' + List.length sm)))%nat
      with (b' - (a' + List.length sm))%nat by lia.
    destruct (Nat.le_gt_cases (a' + List.length sm) b') as [Hle|Hgt].
    + rewrite firstn_between by lia. reflexivity.
    + replace (b' - (a' + List.length sm))%nat with 0%nat by lia. reflexivity.
  - unfold slice_from, len. rewrite <- !Nat2Z.inj_add.
    rewrite (clamp_inside (n := List.length t)) by lia.
    rewrite (clamp_inside (n := List.length raw)) by lia.
    rewrite Hraw. rewrite <- Nat.add_assoc.
    rewrite skipn_between by lia.
    rewrite strip_app_space by exact H2. reflexivity.
Qed.

(** When the model's text holds both markers, the two descriptions are
    the slices of that text as it came, each stripped: the short one
    runs from the end of the first short marker to the first long
    marker, the long one from the end of the first long marker on.
    Stripping the whole text first changes nothing. *)
Theorem sections_read_from_response :
  forall name st raw w,
    generate_content (world st) (lit "gemini-1.5-flash") (prompt name) = (Ok raw, w) ->
    contains short_desc_marker raw = true ->
    contains long_desc_marker raw = true ->
    generate_ai_descriptions name st =
    (Ok {| short := strip (slice raw (find short_desc_marker raw
                                      + len short_desc_marker)
                             (find long_desc_marker raw));
           long_html := strip (slice_from raw (find long_desc_marker raw
                                               + len long_desc_marker)) |},
     {| world := w;
        trace := trace st ++ [EvGenerate (lit "gemini-1.5-flash") (prompt name)] |}).
Proof.
  intros name st raw w Hg Hs Hl.
  unfold generate_ai_descriptions, try_except, bind, call. rewrite Hg.
  unfold ret. rewrite (parse_sections_raw raw Hs Hl). reflexivity.
Qed.

Lemma generate_ai_descriptions_failed (name : str) (st : State) (e : exn) (w : World) :
  generate_content (world st) (lit "gemini-1.5-flash") (prompt name) = (Raise e, w) ->
  exists m,
    generate_ai_descriptions name st =
    (Ok {| short := SHORT_GENERATE_ERROR; long_html := LONG_GENERATE_ERROR |},
     {| world := w;
        trace := trace st ++ [EvGenerate (lit "gemini-1.5-flash") (prompt name);
                              EvWrite m] |}).
Proof.
  intros Hg.
  unfold generate_ai_descriptions, try_except, bind, call, tqdm_write, emit, log.
  rewrite Hg.
  destruct (contains (lit "quota") (lower (exn_str e)));
    eexists; cbn [ret world trace]; rewrite <- app_assoc; reflexivity.
Qed.

Lemma generate_ai_descriptions_trace (name : str) (st : State) :
  exists d st' msgs,
    generate_ai_descriptions name st = (Ok d, st') /\
    trace st' = trace st
                ++ EvGenerate (lit "gemini-1.5-flash") (prompt name)
                   :: List.map EvWrite msgs.
Proof.
  destruct (generate_content (world st) (lit "gemini-1.5-flash") (prompt name))
    as [[raw|e] w] eqn:Hg.
  - eexists; eexists; exists []. split.
    + unfold generate_ai_descriptions, try_except, bind, call. rewrite Hg. reflexivity.
    + reflexivity.
  - destruct (generate_ai_descriptions_failed name st Hg) as [m Hm].
    eexists; eexists; exists [m]. split; [exact Hm | reflexivity].
Qed.

End Sections.

(** ** More about the loop *)

Section Rows.
Context {ext : Externals}.

Lemma pick_image_silent (page_url : str) (soup : Soup) (st : State) :
  exists r, pick_image page_url soup st = (r, st).
Proof.
  unfold pick_image.
  destruct (truthy _); [eexists; reflexivity|].
  destruct (truthy _); [eexists; reflexivity|].
  unfold bind, lift.
  destruct (candidate_urls page_url (find_all soup (lit "img")));
    eexists; reflexivity.
Qed.

Lemma scrape_trace (page_url : str) (st : State) :
  exists r st' evs,
    scrape page_url st = (r, st') /\
    trace st' = trace st ++ evs /\
    (evs = [EvGet page_url false] \/
     exists markup, evs = [EvGet page_url false; EvSoup markup]).
Proof.
  unfold scrape, bind, call, raise_for_status, emit, lift, log.
  destruct (requests_get (world st) page_url false) as [[resp|e] w].
  2:{ eexists; eexists; eexists. split; [reflexivity|].
      split; [reflexivity | left; reflexivity]. }
  destruct ((400 <=? status_code resp)%Z && (status_code resp <? 600)%Z).
  { eexists; eexists; eexists. split; [reflexivity|].
    split; [reflexivity | left; reflexivity]. }
  cbn [ret world trace].
  destruct (BeautifulSoup (text resp)) as [soup|e].
  - match goal with |- context [pick_image page_url soup ?s] =>
      destruct (pick_image_silent page_url soup s) as [r ->] end.
    eexists; eexists; eexists. split; [reflexivity|].
    cbn [trace]. rewrite <- app_assoc.
    split; [reflexivity | right; eexists; reflexivity].
  - eexists; eexists; eexists. split; [reflexivity|].
    cbn [trace]. rewrite <- app_assoc.
    split; [reflexivity | right; eexists; reflexivity].
Qed.

Lemma extract_image_url_trace (page_url : option str) (q cx : str) (st : State) :
  exists r st' pre post,
    extract_image_url page_url q cx st = (Ok r, st') /\
    trace st' = trace st ++ pre ++ post /\
    scrape_events pre /\
    fallback_events q cx post.
Proof.
  assert (forall s : State,
             exists r st' post,
               search_google_images q cx s = (Ok r, st') /\
               trace st' = trace s ++ post /\ fallback_events q cx post) as Hsearch.
  { intros s. destruct (search_google_images_trace q cx s) as (r & st' & msgs & H & Ht).
    exists r, st'. eexists. split; [exact H|]. split; [exact Ht|].
    right. exists msgs. reflexivity. }
  unfold extract_image_url.
  destruct page_url as [[|c u]|].
  - destruct (Hsearch st) as (r & st' & post & H & Ht & Hp).
    exists r, st', [], post. repeat split; try assumption. left. reflexivity.
  - destruct (scrape_trace (c :: u) st) as (r0 & st1 & pre & Hs & Ht1 & Hpre).
    assert (scrape_events pre) as Hsc.
    { destruct Hpre as [->|[markup ->]].
      - right; left. eexists. reflexivity.
      - right; right. eexists; eexists. reflexivity. }
    unfold bind, try_except. rewrite Hs.
    destruct r0 as [[url|]|e].
    + exists (Some url), st1, pre, []. rewrite app_nil_r.
      repeat split; try assumption. left. reflexivity.
    + destruct (Hsearch st1) as (r & st' & post & H & Ht & Hp).
      exists r, st', pre, post. split; [exact H|].
      split; [rewrite Ht, Ht1, app_assoc; reflexivity|]. split; assumption.
    + cbn [ret]. destruct (Hsearch st1) as (r & st' & post & H & Ht & Hp).
      exists r, st', pre, post. split; [exact H|].
      split; [rewrite Ht, Ht1, app_assoc; reflexivity|]. split; assumption.
  - destruct (Hsearch st) as (r & st' & post & H & Ht & Hp).
    exists r, st', [], post. repeat split; try assumption. left. reflexivity.
Qed.

(** Whatever the page and the world, the resolution of an image returns
    normally after at most one request for the page, at most one parse
    and at most one image search, in this order. *)
Theorem extract_events_in_order :
  forall page_url q cx st,
    exists r st' pre post,
      extract_image_url page_url q cx st = (Ok r, st') /\
      trace st' = trace st ++ pre ++ post /\
      scrape_events pre /\
      fallback_events q cx post.
Proof. exact extract_image_url_trace. Qed.

(** *** Counting *)

Lemma bounded_app (a b c d e f a' b' c' d' e' f' : nat) (l l' : list Event) :
  bounded a b c d e f l -> bounded a' b' c' d' e' f' l' ->
  bounded (a + a') (b + b') (c + c') (d + d') (e + e') (f + f') (l ++ l').
Proof.
  unfold bounded. intros (A & B & C & D & E & F) (A' & B' & C' & D' & E' & F').
  rewrite !count_app. repeat split; lia.
Qed.

Lemma bounded_writes (msgs : list Message) :
  bounded 0 0 0 0 0 0 (List.map EvWrite msgs).
Proof.
  unfold bounded. rewrite !count_writes by reflexivity. repeat split; lia.
Qed.

Lemma bounded_scrape (evs : list Event) :
  scrape_events evs -> bounded 0 0 0 0 1 0 evs.
Proof.
  intros [->|[[u ->]|[u [t ->]]]]; unfold bounded, count; simpl; repeat split; lia.
Qed.

Lemma bounded_fallback (q cx : str) (evs : list Event) :
  fallback_events q cx evs -> bounded 0 0 0 1 0 0 evs.
Proof.
  intros [->|[msgs ->]].
  - unfold bounded, count; simpl; repeat split; lia.
  - change (EvWrite MsgFinalAttempt :: EvCseList q cx true :: List.map EvWrite msgs)
      with ([EvWrite MsgFinalAttempt; EvCseList q cx true] ++ List.map EvWrite msgs).
    apply (bounded_app (a := 0) (b := 0) (c := 0) (d := 1) (e := 0) (f := 0)
             (a' := 0) (b' := 0) (c' := 0) (d' := 0) (e' := 0) (f' := 0)).
    + unfold bounded, count; simpl; repeat split; lia.
    + apply bounded_writes.
Qed.

Lemma bounded_download (url : str) (evs : list Event) :
  download_events url evs -> bounded 0 0 0 0 1 2 evs.
Proof.
  intros [->|[->|[->|[p ->]]]]; unfold bounded, count; simpl; repeat split; lia.
Qed.

(** *** The loop body in pieces *)

Lemma process_decomposed (index : nat) (row : Row) (processed : list EnrichmentResult)
      (st : State) :
  exists page st1 found st2 local st4 d st5,
    search_product_page_url (name_of row) CSE_ID
      (log (EvWrite (MsgProcessing (name_of row))) st) = (Ok page, st1) /\
    extract_image_url page (name_of row) CSE_ID st1 = (Ok found, st2) /\
    download_image (Some (chosen_image found)) (sku_of index row)
      (after_choice found st2) = (Ok (Some local), st4) /\
    generate_ai_descriptions (name_of row) st4 = (Ok d, st5) /\
    process index row processed st =
    (Ok (processed ++
         [{| Nome := name_of row;
             Descricao_Curta := short d;
             Descricao_Longa_HTML := long_html d;
             Preco := row_get (row_price row) (Float zero_float);
             Referencia_SKU := sku_of index row;
             Peso := Int 0;
             Estoque := row_get (row_qty row) (Int 0);
             URL_da_Imagem := image_column (chosen_image found);
             Situacao := lit "Ativo";
             Caminho_Imagem_Local := Some local;
             URL_Origem_Pagina := page_column page |}]),
     log (EvSleep 1) st5).
Proof.
  destruct (search_product_page_url_total (name_of row) CSE_ID
              (log (EvWrite (MsgProcessing (name_of row))) st)) as (page & st1 & H1).
  destruct (extract_image_url_total page (name_of row) CSE_ID st1) as (found & st2 & H2).
  destruct (download_image_trace (chosen_image found) (sku_of index row)
              (after_choice found st2)) as (local & st4 & evs & H3 & _).
  destruct (generate_ai_descriptions_total (name_of row) st4) as (d & st5 & H4).
  exists page, st1, found, st2, local, st4, d, st5.
  repeat split; try assumption.
  eapply process_steps; eassumption.
Qed.

Lemma main_loop_records (Q : nat -> Row -> EnrichmentResult -> Prop) :
  (forall index row processed st,
      exists r st',
        process index row processed st = (Ok (processed ++ [r]), st') /\
        Q index row r) ->
  forall rows index processed st,
  exists out st',
    main_loop index rows processed st = (Ok (processed ++ out), st') /\
    Forall2 (fun ir r => Q (fst ir) (snd ir) r) (indexed index rows) out.
Proof.
  intros Hrow rows. induction rows as [|row rest IH]; intros index processed st.
  - exists [], st. rewrite app_nil_r. split; [reflexivity | constructor].
  - destruct (Hrow index row processed st) as (r & st1 & Hp & Hq).
    destruct (IH (S index) (processed ++ [r]) st1) as (out & st' & Hl & Hf).
    exists (r :: out), st'. split.
    + simpl. unfold bind. rewrite Hp, Hl, <- app_assoc. reflexivity.
    + unfold indexed. simpl. constructor; [exact Hq | exact Hf].
Qed.

Lemma chosen_image_nonempty (found : option str) : chosen_image found <> [].
Proof. destruct found as [[|c u]|]; discriminate. Qed.

Lemma image_column_nonempty (image_url : str) :
  image_url <> [] -> image_column image_url <> [].
Proof.
  intros H. unfold image_column.
  destruct (negb (contains (lit "não encontrada") image_url));
    [exact H | discriminate].
Qed.

Lemma page_column_nonempty (page : option str) : page_column page <> [].
Proof. destruct page as [[|c u]|]; discriminate. Qed.

End Rows.

(** ** More about a batch *)

Section Batches.
Context {ext : Externals}.

Lemma process_budget (index : nat) (row : Row) (processed : list EnrichmentResult)
      (st : State) :
  exists r st' evs,
    process index row processed st = (Ok (processed ++ [r]), st') /\
    trace st' = trace st ++ evs /\
    within_budget 1 evs.
Proof.
  destruct (search_product_page_url_trace (name_of row) CSE_ID
              (log (EvWrite (MsgProcessing (name_of row))) st))
    as (page & st1 & m1 & H1 & T1 & _).
  destruct (extract_image_url_trace page (name_of row) CSE_ID st1)
    as (found & st2 & pre & post & H2 & T2 & Hpre & Hpost).
  destruct (download_image_trace (chosen_image found) (sku_of index row)
              (after_choice found st2)) as (local & st4 & dl & H3 & T3 & Hdl & _).
  destruct (generate_ai_descriptions_trace (name_of row) st4)
    as (d & st5 & m2 & H4 & T4).
  assert (exists noimg,
             trace (after_choice found st2) = trace st2 ++ List.map EvWrite noimg)
    as [noimg Tn].
  { destruct found as [[|c u]|].
    - exists [MsgNoImage]. reflexivity.
    - exists []. simpl. rewrite app_nil_r. reflexivity.
    - exists [MsgNoImage]. reflexivity. }
  eexists; exists (log (EvSleep 1) st5).
  exists ([EvWrite (MsgProcessing (name_of row))]
          ++ (EvCseList (name_of row) CSE_ID false :: List.map EvWrite m1)
          ++ (pre ++ post) ++ List.map EvWrite noimg ++ dl
          ++ (EvGenerate (lit "gemini-1.5-flash") (prompt (name_of row))
              :: List.map EvWrite m2)
          ++ [EvSleep 1]).
  split; [eapply process_steps; eassumption|]. split.
  - cbn [log trace]. rewrite T4, T3, Tn, T2, T1. cbn [log trace].
    rewrite <- !app_assoc. reflexivity.
  - unfold within_budget. fold (bounded 1 1 1 1 (2 * 1) (2 * 1)).
    apply (bounded_app (a := 0) (b := 0) (c := 0) (d := 0) (e := 0) (f := 0)
             (a' := 1) (b' := 1) (c' := 1) (d' := 1) (e' := 2) (f' := 2)).
    { apply (bounded_writes [MsgProcessing (name_of row)]). }
    apply (bounded_app (a := 1) (b := 0) (c := 0) (d := 0) (e := 0) (f := 0)
             (a' := 0) (b' := 1) (c' := 1) (d' := 1) (e' := 2) (f' := 2)).
    { apply (bounded_app (a := 1) (b := 0) (c := 0) (d := 0) (e := 0) (f := 0)
               (a' := 0) (b' := 0) (c' := 0) (d' := 0) (e' := 0) (f' := 0)
               (l := [EvCseList (name_of row) CSE_ID false])).
      - unfold bounded, count; simpl; repeat split; lia.
      - apply bounded_writes. }
    apply (bounded_app (a := 0) (b := 0) (c := 0) (d := 1) (e := 1) (f := 0)
             (a' := 0) (b' := 1) (c' := 1) (d' := 0) (e' := 1) (f' := 2)).
    { apply (bounded_app (a := 0) (b := 0) (c := 0) (d := 0) (e := 1) (f := 0)
               (a' := 0) (b' := 0) (c' := 0) (d' := 1) (e' := 0) (f' := 0)).
      - apply bounded_scrape. exact Hpre.
      - eapply bounded_fallback. exact Hpost. }
    apply (bounded_app (a := 0) (b := 0) (c := 0) (d := 0) (e := 0) (f := 0)
             (a' := 0) (b' := 1) (c' := 1) (d' := 0) (e' := 1) (f' := 2)).
    { apply bounded_writes. }
    apply (bounded_app (a := 0) (b := 0) (c := 0) (d := 0) (e := 1) (f := 2)
             (a' := 0) (b' := 1) (c' := 1) (d' := 0) (e' := 0) (f' := 0)).
    { eapply bounded_download. exact Hdl. }
    apply (bounded_app (a := 0) (b := 1) (c := 0) (d := 0) (e := 0) (f := 0)
             (a' := 0) (b' := 0) (c' := 1) (d' := 0) (e' := 0) (f' := 0)).
    { apply (bounded_app (a := 0) (b := 1) (c := 0) (d := 0) (e := 0) (f := 0)
               (a' := 0) (b' := 0) (c' := 0) (d' := 0) (e' := 0) (f' := 0)
               (l := [EvGenerate (lit "gemini-1.5-flash") (prompt (name_of row))])).
      - unfold bounded, count; simpl; repeat split; lia.
      - apply bounded_writes. }
    unfold bounded, count; simpl; repeat split; lia.
Qed.

(** A batch of [n] rows costs exactly [n] page searches, [n] calls to
    the model and [n] pauses, at most [n] image searches, at most [2 * n]
    HTTP requests and at most [2 * n] file-system calls, whatever the
    world answers; and it gives [n] results. *)
Theorem batch_call_budget :
  forall rows index processed st,
    exists out st' evs,
      main_loop index rows processed st = (Ok (processed ++ out), st') /\
      List.length out = List.length rows /\
      trace st' = trace st ++ evs /\
      within_budget (List.length rows) evs.
Proof.
  intros rows. induction rows as [|row rest IH]; intros index processed st.
  - exists [], st, []. rewrite !app_nil_r.
    repeat split; unfold count; simpl; lia.
  - destruct (process_budget index row processed st) as (r & st1 & e1 & Hp & T1 & B1).
    destruct (IH (S index) (processed ++ [r]) st1) as (out & st' & e2 & Hl & Hn & T2 & B2).
    exists (r :: out), st', (e1 ++ e2). split; [|split; [|split]].
    + simpl. unfold bind. rewrite Hp, Hl, <- app_assoc. reflexivity.
    + simpl. rewrite Hn. reflexivity.
    + rewrite T2, T1, app_assoc. reflexivity.
    + unfold within_budget in *.
      destruct B1 as (A1 & B1 & C1 & D1 & E1 & F1).
      destruct B2 as (A2 & B2 & C2 & D2 & E2 & F2).
      rewrite !count_app. simpl List.length. repeat split; lia.
Qed.

(** In every result of a batch the image URL and the page column are
    not empty, the local path is present, the status is "Ativo" and the
    weight is 0. *)
Theorem records_are_complete :
  forall rows index processed st,
    exists out st',
      main_loop index rows processed st = (Ok (processed ++ out), st') /\
      Forall (fun r =>
                URL_da_Imagem r <> [] /\
                URL_Origem_Pagina r <> [] /\
                Caminho_Imagem_Local r <> None /\
                Situacao r = lit "Ativo" /\
                Peso r = Int 0) out.
Proof.
  intros rows index processed st.
  destruct (main_loop_records
              (fun _ _ r =>
                 URL_da_Imagem r <> [] /\ URL_Origem_Pagina r <> [] /\
                 Caminho_Imagem_Local r <> None /\
                 Situacao r = lit "Ativo" /\ Peso r = Int 0)) with
    (rows := rows) (index := index) (processed := processed) (st := st)
    as (out & st' & Hl & Hf).
  - intros i row p s.
    destruct (process_decomposed i row p s)
      as (page & st1 & found & st2 & local & st4 & d & st5 & _ & _ & _ & _ & Hp).
    do 2 eexists. split; [exact Hp|]. cbn.
    split; [apply image_column_nonempty, chosen_image_nonempty|].
    split; [apply page_column_nonempty|].
    split; [discriminate|]. split; reflexivity.
  - exists out, st'. split; [exact Hl|].
    clear Hl. induction Hf; constructor; assumption.
Qed.

(** While the model fails on every call, every result of a batch carries
    the two generation-error placeholders, and no row is lost. *)
Theorem model_outage_batch :
  (forall w model text, exists e w', generate_content w model text = (Raise e, w')) ->
  forall rows index processed st,
    exists out st',
      main_loop index rows processed st = (Ok (processed ++ out), st') /\
      List.length out = List.length rows /\
      Forall (fun r =>
                Descricao_Curta r = SHORT_GENERATE_ERROR /\
                Descricao_Longa_HTML r = LONG_GENERATE_ERROR) out.
Proof.
  intros Hdown rows index processed st.
  destruct (main_loop_records
              (fun _ _ r =>
                 Descricao_Curta r = SHORT_GENERATE_ERROR /\
                 Descricao_Longa_HTML r = LONG_GENERATE_ERROR)) with
    (rows := rows) (index := index) (processed := processed) (st := st)
    as (out & st' & Hl & Hf).
  - intros i row p s.
    destruct (process_decomposed i row p s)
      as (page & st1 & found & st2 & local & st4 & d & st5 & _ & _ & _ & H4 & Hp).
    destruct (Hdown (world st4) (lit "gemini-1.5-flash") (prompt (name_of row)))
      as (e & w' & He).
    destruct (generate_ai_descriptions_failed (name_of row) st4 He) as [m Hm].
    rewrite Hm in H4. injection H4 as <- _.
    do 2 eexists. split; [exact Hp|]. split; reflexivity.
  - exists out, st'. split; [exact Hl|]. split.
    + pose proof (Forall2_length Hf) as Hlen. unfold indexed in Hlen.
      rewrite length_combine, length_seq, Nat.min_id in Hlen. symmetry. exact Hlen.
    + clear Hl. induction Hf; constructor; assumption.
Qed.

(** A download that fails does not take the image URL away: when the
    request for the image fails, or answers with a status from 400 to
    599, the result has the download-error marker as local path and its
    image column is what the URL alone decides. *)
Theorem download_failure_keeps_url :
  forall index row processed st st1 st2 page url w,
    search_product_page_url (name_of row) CSE_ID
      (log (EvWrite (MsgProcessing (name_of row))) st) = (Ok page, st1) ->
    extract_image_url page (name_of row) CSE_ID st1 = (Ok (Some url), st2) ->
    url <> [] ->
    is_failure_marker url = false ->
    (exists e, requests_get (world st2) url true = (Raise e, w)) \/
    (exists resp,
        requests_get (world st2) url true = (Ok resp, w) /\
        (400 <=? status_code resp)%Z && (status_code resp <? 600)%Z = true) ->
    exists r st',
      process index row processed st = (Ok (processed ++ [r]), st') /\
      Caminho_Imagem_Local r = Some DOWNLOAD_ERROR /\
      URL_da_Imagem r = image_column url /\
      (contains (lit "não encontrada") url = false -> URL_da_Imagem r = url).
Proof.
  intros index row processed st st1 st2 page url w H1 H2 Hn Hm Hfail.
  destruct url as [|c u]; [contradiction|].
  pose proof (download_request_failed (sku_of index row) st2 Hn Hm Hfail) as H3.
  destruct (generate_ai_descriptions_total (name_of row)
              {| world := w; trace := trace st2 ++ [EvGet (c :: u) true] |})
    as (d & st5 & H4).
  do 2 eexists. split.
  - eapply process_steps; [exact H1 | exact H2 | exact H3 | exact H4].
  - cbn [Caminho_Imagem_Local URL_da_Imagem chosen_image].
    split; [reflexivity|]. split; [reflexivity|].
    intros Hc. unfold image_column. rewrite Hc. reflexivity.
Qed.

End Batches.

(** ** The entry point *)

Section Entry.
Context {ext : Externals} {desk : Desk}.

Lemma enrich_table_outcome (rows : list Row) (s s' : Session) (r : result unit) :
  enrich_table rows s = (r, s') ->
  exists evs,
    shell s' = shell s ++ ShPrint (Starting (List.length rows))
                          :: ShBuild GOOGLE_API_KEY :: evs /\
    after_table rows r (trace (state s)) (trace (state s')) evs.
Proof.
  unfold enrich_table, sbind, print, shell_call, run, note.
  cbn [state shell world trace].
  destruct (build_service (world (state s)) GOOGLE_API_KEY) as [[[]|e] w].
  2:{ intros H. injection H as <- <-. exists []. cbn [shell state trace].
      rewrite <- app_assoc. split; [reflexivity|].
      left. split; [reflexivity|]. split; [reflexivity | eauto]. }
  cbn [state shell world trace].
  match goal with |- context [main_loop 0 rows [] ?st0] =>
    destruct (main_loop_total rows 0 [] st0) as (out & st1 & Hl & Hn & Hf) end.
  rewrite Hl. cbn [app state shell world trace].
  destruct out as [|x out].
  - intros H. injection H as <- <-. exists [ShPrint NothingProcessed].
    cbn [shell]. rewrite <- !app_assoc. split; [reflexivity|].
    right; left. split; [|split; reflexivity].
    destruct rows; [reflexivity | discriminate].
  - cbn [state shell world trace].
    destruct (to_excel (world st1) OUTPUT_FILENAME (x :: out)) as [[[]|e] w1].
    + intros H. injection H as <- <-. eexists. cbn [shell].
      rewrite <- !app_assoc. split; [reflexivity|].
      right; right. exists (x :: out). split; [discriminate|].
      split; [exact Hf|]. right. split; reflexivity.
    + intros H. injection H as <- <-. eexists. cbn [shell].
      rewrite <- !app_assoc. split; [reflexivity|].
      right; right. exists (x :: out). split; [discriminate|].
      split; [exact Hf|]. left. split; [reflexivity | eauto].
Qed.

Lemma main_outcome (s s' : Session) (r : result unit) :
  main s = (r, s') ->
  (exists evs,
      shell s' = shell s ++ evs /\ before_table evs /\
      trace (state s') = trace (state s) /\
      (r = Ok tt \/ (exists e, r = Raise e) /\ evs = [ShConfigure GEMINI_API_KEY; ShInput])) \/
  (exists evs s1 rows path w w',
      shell s1 = shell s ++ evs /\ before_table evs /\
      trace (state s1) = trace (state s) /\
      contains (lit "COLE_SUA_CHAVE") GOOGLE_API_KEY
      || contains (lit "COLE_SEU_ID") CSE_ID
      || contains (lit "COLE_SUA_CHAVE") GEMINI_API_KEY = false /\
      path_exists w path = true /\
      ((endswith (lit ".csv") (lower path) = true /\
        read_csv w path = (Ok rows, w')) \/
       (endswith (lit ".csv") (lower path) = false /\
        endswith (lit ".xls") (lower path) || endswith (lit ".xlsx") (lower path) = true /\
        read_excel w path = (Ok rows, w'))) /\
      enrich_table rows s1 = (r, s')).
Proof.
  unfold main.
  destruct (contains (lit "COLE_SUA_CHAVE") GOOGLE_API_KEY
            || contains (lit "COLE_SEU_ID") CSE_ID
            || contains (lit "COLE_SUA_CHAVE") GEMINI_API_KEY) eqn:Hkeys.
  { intros H. injection H as <- <-. left. eexists.
    split; [reflexivity|]. repeat split. left. reflexivity. }
  unfold sbind, stry, print, shell_call, note, read_table.
  cbn [state shell world trace].
  destruct (genai_configure (world (state s)) GEMINI_API_KEY) as [[[]|e] w0].
  2:{ cbn [sret negb]. intros H. injection H as <- <-. left. eexists.
      cbn [shell state trace]. rewrite <- !app_assoc.
      split; [reflexivity|]. repeat split. left. reflexivity. }
  cbn [sret negb state shell world trace].
  destruct (input w0) as [[path|e] w1].
  2:{ intros H. injection H as <- <-. left. eexists.
      cbn [shell state trace]. rewrite <- !app_assoc.
      split; [reflexivity|]. repeat split. right. split; [eauto | reflexivity]. }
  cbn [state shell world trace].
  destruct (path_exists w1 path) eqn:Hex.
  2:{ cbn [negb]. intros H. injection H as <- <-. left. eexists.
      cbn [shell state trace]. rewrite <- !app_assoc.
      split; [reflexivity|]. repeat split. left. reflexivity. }
  cbn [negb].
  destruct (endswith (lit ".csv") (lower path)) eqn:Hcsv.
  - unfold sbind, shell_call. cbn [state shell world trace].
    destruct (read_csv w1 path) as [[rows|e] w2] eqn:Hread.
    + cbn [sret]. intros H. right.
      eexists; eexists; exists rows, path, w1, w2.
      split; [|split; [|split; [|split; [|split; [|split; [|exact H]]]]]].
      * cbn [shell]. rewrite <- !app_assoc. reflexivity.
      * split; reflexivity.
      * reflexivity.
      * reflexivity.
      * exact Hex.
      * left. split; [exact Hcsv | exact Hread].
    + cbn [sret]. intros H. injection H as <- <-. left. eexists.
      cbn [shell state trace]. rewrite <- !app_assoc.
      split; [reflexivity|]. repeat split. left. reflexivity.
  - destruct (endswith (lit ".xls") (lower path)
              || endswith (lit ".xlsx") (lower path)) eqn:Hxls.
    + unfold sbind, shell_call. cbn [state shell world trace].
      destruct (read_excel w1 path) as [[rows|e] w2] eqn:Hread.
      * cbn [sret]. intros H. right.
        eexists; eexists; exists rows, path, w1, w2.
        split; [|split; [|split; [|split; [|split; [|split; [|exact H]]]]]].
        -- cbn [shell]. rewrite <- !app_assoc. reflexivity.
        -- split; reflexivity.
        -- reflexivity.
        -- reflexivity.
        -- exact Hex.
        -- right. split; [exact Hcsv|]. split; [exact Hxls | exact Hread].
      * cbn [sret]. intros H. injection H as <- <-. left. eexists.
        cbn [shell state trace]. rewrite <- !app_assoc.
        split; [reflexivity|]. repeat split. left. reflexivity.
    + unfold sbind, print, note. cbn [sret state shell world trace].
      intros H. injection H as <- <-. left. eexists.
      cbn [shell state trace]. rewrite <- !app_assoc.
      split; [reflexivity|]. repeat split. left. reflexivity.
Qed.

Lemma existsb_not_in {A} (p : A -> bool) (l : list A) (x : A) :
  existsb p l = false -> In x l -> p x = false.
Proof.
  intros H Hin. destruct (p x) eqn:E; [|reflexivity].
  assert (existsb p l = true) as Ht by (apply existsb_exists; eauto).
  congruence.
Qed.

(** Either [main] got as far as building the search service, and then
    the keys were set, the input file existed and a table was read from
    it; or the pipeline did nothing at all and nothing was exported. *)
Theorem processing_needs_a_table :
  forall s r s',
    main s = (r, s') ->
    exists evs,
      shell s' = shell s ++ evs /\
      ((existsb is_build evs = false /\
        existsb is_export evs = false /\
        trace (state s') = trace (state s)) \/
       (existsb is_build evs = true /\
        contains (lit "COLE_SUA_CHAVE") GOOGLE_API_KEY
        || contains (lit "COLE_SEU_ID") CSE_ID
        || contains (lit "COLE_SUA_CHAVE") GEMINI_API_KEY = false /\
        exists path rows w w',
          path_exists w path = true /\
          (read_csv w path = (Ok rows, w') \/ read_excel w path = (Ok rows, w')))).
Proof.
  intros s r s' H. destruct (main_outcome s H) as [Ha|Hb].
  - destruct Ha as (evs & Hs & [Hb He] & Ht & _).
    exists evs. split; [exact Hs|]. left. repeat split; assumption.
  - destruct Hb as (evs & s1 & rows & path & w & w' & Hs & _ & _ & Hk & Hex & Hread & Hen).
    destruct (enrich_table_outcome rows s1 Hen) as (evs2 & Hs2 & _).
    eexists. split; [rewrite Hs2, Hs, <- app_assoc; reflexivity|].
    right. split; [|split; [exact Hk|]].
    + rewrite existsb_app. simpl. rewrite !orb_true_r. reflexivity.
    + exists path, rows, w, w'. split; [exact Hex|].
      destruct Hread as [[_ Hr]|[_ [_ Hr]]]; [left | right]; exact Hr.
Qed.

(** Whatever [main] exports, it exports to the output file, the list is
    not empty, and it holds one result per row of the table that was
    read, in the order of the rows. *)
Theorem export_matches_table :
  forall s r s',
    main s = (r, s') ->
    exists evs,
      shell s' = shell s ++ evs /\
      forall file out,
        In (ShToExcel file out) evs ->
        file = OUTPUT_FILENAME /\
        out <> [] /\
        exists path rows w w',
          (read_csv w path = (Ok rows, w') \/ read_excel w path = (Ok rows, w')) /\
          Forall2 (fun ir x => made_from (fst ir) (snd ir) x) (indexed 0 rows) out.
Proof.
  intros s r s' H. destruct (main_outcome s H) as [Ha|Hb].
  - destruct Ha as (evs & Hs & [_ He] & _).
    exists evs. split; [exact Hs|]. intros file out Hin.
    pose proof (existsb_not_in is_export evs _ He Hin) as Hx. discriminate.
  - destruct Hb as (evs & s1 & rows & path & w & w' & Hs & [_ He] & _ & _ & _ & Hread & Hen).
    destruct (enrich_table_outcome rows s1 Hen) as (evs2 & Hs2 & Hafter).
    eexists. split; [rewrite Hs2, Hs, <- app_assoc; reflexivity|].
    intros file out Hin.
    assert (exists rows0, (read_csv w path = (Ok rows0, w')
                           \/ read_excel w path = (Ok rows0, w')) /\ rows0 = rows)
      as (rows0 & Hr0 & ->).
    { exists rows. split; [|reflexivity].
      destruct Hread as [[_ Hr]|[_ [_ Hr]]]; [left | right]; exact Hr. }
    apply in_app_or in Hin. destruct Hin as [Hin|Hin].
    { pose proof (existsb_not_in is_export evs _ He Hin) as Hx. discriminate. }
    destruct Hin as [Hin|[Hin|Hin]]; [discriminate | discriminate |].
    destruct Hafter as [(-> & _)|[(_ & -> & _)|(o & Ho & Hf & Hcase)]].
    + destruct Hin.
    + destruct Hin as [Hin|[]]. discriminate.
    + assert (ShToExcel file out = ShToExcel OUTPUT_FILENAME o) as Heq.
      { destruct Hcase as [(-> & _)|(-> & _)].
        - destruct Hin as [Hin|[]]. symmetry. exact Hin.
        - destruct Hin as [Hin|[Hin|[Hin|[Hin|[]]]]];
            [symmetry; exact Hin | discriminate | discriminate | discriminate]. }
      injection Heq as -> ->.
      split; [reflexivity|]. split; [exact Ho|].
      exists path, rows, w, w'. split; [exact Hr0 | exact Hf].
Qed.


End Entry.

(** ** The further properties on the scripted worlds *)

Module MoreRuns.
Import Scenario Office.

Lemma page_search_top_link_witness :
  search_product_page_url (ext := shop) (lit "Widget") CSE_ID start
  = (Ok (Some page1),
     Build_State (ext := shop) tt (trace start ++ [EvCseList (lit "Widget") CSE_ID false])).
Proof.
  apply (proj2 (page_search_top_link (ext := shop) (lit "Widget") CSE_ID start
                  (Build_State (ext := shop) tt
                     (trace start ++ [EvCseList (lit "Widget") CSE_ID false]))
                  page1)).
  exists (one_link page1), tt, {| link := Some page1 |}, [].
  repeat split.
Defined.


Lemma failed_fetch_falls_back_witness :
  fst (extract_image_url (ext := strict) (Some page7) (lit "Nada")
         (CSE_ID (Externals := strict)) opening)
  = Ok None.
Proof.
  eapply eq_trans;
    [apply (f_equal fst);
     apply (failed_fetch_falls_back (ext := strict) (page_url := page7)
              (lit "Nada") (CSE_ID (Externals := strict)) opening (w := tt))
    | vm_compute; reflexivity].
  - vm_compute. discriminate.
  - right. exists {| status_code := 404; text := [] |}.
    split; vm_compute; reflexivity.
Defined.

Lemma gallery_zoom_first_witness :
  fst (extract_image_url (ext := strict) (Some page6) (lit "Nada")
         (CSE_ID (Externals := strict)) opening)
  = Ok (Some (lit "http://shop.test/zoom.jpg")).
Proof.
  eapply eq_trans;
    [apply (f_equal fst);
     apply (gallery_zoom_first (ext := strict) (page_url := page6)
              (lit "Nada") (CSE_ID (Externals := strict)) opening
              (resp := {| status_code := 200; text := markup6 |}) (w := tt)
              (soup := soup6)
              (img_tag := {| tag_name := lit "img"; tag_class := [GALLERY_CLASS];
                             tag_attrs := [(lit "data-zoom",
                                            lit "http://shop.test/zoom.jpg")] |})
              (zoom := lit "http://shop.test/zoom.jpg"))
    | reflexivity].
  - vm_compute. discriminate.
  - vm_compute. reflexivity.
  - vm_compute. reflexivity.
  - vm_compute. reflexivity.
  - vm_compute. reflexivity.
  - vm_compute. reflexivity.
  - vm_compute. discriminate.
Defined.

Lemma rejected_src_discards_candidates_witness :
  candidate_urls (ext := strict) page5 (find_all soup5 (lit "img"))
  = Raise (OtherException (lit "Invalid IPv6 URL")) /\
  fst (extract_image_url (ext := strict) (Some page5) (lit "Nada")
         (CSE_ID (Externals := strict)) opening)
  = Ok None.
Proof.
  split; [vm_compute; reflexivity|].
  eapply eq_trans;
    [apply (f_equal fst);
     apply (rejected_src_discards_candidates (ext := strict) (page_url := page5)
              (lit "Nada") (CSE_ID (Externals := strict)) opening
              (resp := {| status_code := 200; text := markup5 |}) (w := tt)
              (soup := soup5) (e := OtherException (lit "Invalid IPv6 URL")))
    | vm_compute; reflexivity].
  - vm_compute. discriminate.
  - vm_compute. reflexivity.
  - vm_compute. reflexivity.
  - vm_compute. reflexivity.
  - vm_compute. reflexivity.
  - vm_compute. reflexivity.
  - vm_compute. reflexivity.
Defined.

Lemma candidates_come_from_images_witness :
  List.length [lit "http://shop.test/photo.jpg"]
  <= List.length (find_all soup4 (lit "img")).
Proof.
  apply (candidates_come_from_images (ext := shop) page4 (find_all soup4 (lit "img"))).
  vm_compute. reflexivity.
Defined.

Lemma download_saves_under_sku_witness :
  fst (download_image (ext := shop) (Some (lit "http://shop.test/w.jpg")) (lit "P1") start)
  = Ok (Some (lit "imagens_produtos/P1.jpg")).
Proof.
  eapply eq_trans;
    [apply (f_equal fst);
     apply (download_saves_under_sku (ext := shop) (url := lit "http://shop.test/w.jpg")
              (lit "P1") start (resp := {| status_code := 200; text := [] |})
              (w1 := tt) (path := lit "/w.jpg") (w2 := tt) (w3 := tt))
    | vm_compute; reflexivity].
  - vm_compute. discriminate.
  - vm_compute. reflexivity.
  - vm_compute. reflexivity.
  - vm_compute. reflexivity.
  - vm_compute. reflexivity.
  - vm_compute. reflexivity.
  - vm_compute. reflexivity.
Defined.

Lemma failed_request_no_file_witness :
  download_image (ext := shop) (Some (lit "http://shop.test/missing.png")) (lit "P2") start
  = (Ok (Some DOWNLOAD_ERROR),
     Build_State (ext := shop) tt
       (trace start ++ [EvGet (lit "http://shop.test/missing.png") true])).
Proof.
  apply (failed_request_no_file (ext := shop)).
  - vm_compute. discriminate.
  - vm_compute. reflexivity.
  - left. exists (RequestException (lit "connection refused")). vm_compute. reflexivity.
Defined.

Lemma sections_read_from_response_witness :
  fst (generate_ai_descriptions (ext := shop) (lit "Widget") start)
  = Ok {| short := lit "Um widget."; long_html := lit "<p>Um widget.</p>" |}.
Proof.
  eapply eq_trans;
    [apply (f_equal fst);
     apply (sections_read_from_response (ext := shop) (lit "Widget") start
              (raw := well_formed_answer) (w := tt))
    | vm_compute; reflexivity].
  - vm_compute. reflexivity.
  - vm_compute. reflexivity.
  - vm_compute. reflexivity.
Defined.

Lemma model_outage_batch_witness :
  exists out st',
    main_loop (ext := outage) 0 bare_rows [] dark = (Ok ([] ++ out), st') /\
    List.length out = List.length bare_rows /\
    Forall (fun r =>
              Descricao_Curta r = SHORT_GENERATE_ERROR /\
              Descricao_Longa_HTML r = LONG_GENERATE_ERROR) out.
Proof.
  apply (model_outage_batch (ext := outage)).
  intros w model p. exists (OtherException (lit "429 Quota exceeded")), w.
  reflexivity.
Defined.

Lemma download_failure_keeps_url_witness :
  exists r st',
    process (ext := shop) 0 (row_named (lit "P4") (lit "Poster")) [] start
    = (Ok ([] ++ [r]), st') /\
    Caminho_Imagem_Local r = Some DOWNLOAD_ERROR /\
    URL_da_Imagem r = lit "http://shop.test/photo.jpg".
Proof.
  destruct (download_failure_keeps_url (ext := shop) 0
              (row_named (lit "P4") (lit "Poster")) [] start
              (st1 := log (EvCseList (lit "Poster") CSE_ID false)
                        (log (EvWrite (MsgProcessing (lit "Poster"))) start))
              (st2 := Build_State (ext := shop) tt
                        [EvWrite (MsgProcessing (lit "Poster"));
                         EvCseList (lit "Poster") CSE_ID false;
                         EvGet page4 false; EvSoup markup4])
              (page := Some page4) (url := lit "http://shop.test/photo.jpg") (w := tt))
    as (r & st' & Hp & Hl & _ & Hu).
  - vm_compute. reflexivity.
  - vm_compute. reflexivity.
  - vm_compute. discriminate.
  - vm_compute. reflexivity.
  - left. exists (RequestException (lit "connection refused")). vm_compute. reflexivity.
  - exists r, st'. split; [exact Hp|]. split; [exact Hl|].
    apply Hu. vm_compute. reflexivity.
Defined.

Lemma processing_needs_a_table_witness :
  exists evs,
    shell (snd (main (desk := front) morning)) = shell morning ++ evs /\
    ((existsb is_build evs = false /\
      existsb is_export evs = false /\
      trace (state (snd (main (desk := front) morning))) = trace (state morning)) \/
     (existsb is_build evs = true /\
      contains (lit "COLE_SUA_CHAVE") (GOOGLE_API_KEY (Desk := front))
      || contains (lit "COLE_SEU_ID") CSE_ID
      || contains (lit "COLE_SUA_CHAVE") (GEMINI_API_KEY (Desk := front)) = false /\
      exists path rows w w',
        path_exists (Desk := front) w path = true /\
        (read_csv (Desk := front) w path = (Ok rows, w') \/
         read_excel (Desk := front) w path = (Ok rows, w')))).
Proof.
  apply (processing_needs_a_table (desk := front) morning
           (r := fst (main (desk := front) morning))).
  vm_compute. reflexivity.
Defined.

Lemma export_matches_table_witness :
  exists evs,
    shell (snd (main (desk := front) morning)) = shell morning ++ evs /\
    forall file out,
      In (ShToExcel file out) evs ->
      file = OUTPUT_FILENAME /\
      out <> [] /\
      exists path rows w w',
        (read_csv (Desk := front) w path = (Ok rows, w') \/
         read_excel (Desk := front) w path = (Ok rows, w')) /\
        Forall2 (fun ir x => made_from (fst ir) (snd ir) x) (indexed 0 rows) out.
Proof.
  apply (export_matches_table (desk := front) morning
           (r := fst (main (desk := front) morning))).
  vm_compute. reflexivity.
Defined.


(** The desk as the script ships: nothing happens but one notice. *)
Example untouched_keys :
  main (desk := untouched) morning
  = (Ok tt, {| state := start; shell := [ShPrint NoKeys] |}).
Proof. vm_compute. reflexivity. Qed.

(** A run at the front desk: the table is read as CSV although the
    name is in upper case, and both rows are exported. *)
Example front_desk_run :
  List.map (fun ev => match ev with
                      | ShToExcel _ out => List.map (Referencia_SKU (ext := shop)) out
                      | _ => []
                      end)
    (shell (snd (main (desk := front) morning)))
  = [[]; []; []; []; []; []; [lit "P1"; lit "P9"]; []; []; []].
Proof. vm_compute. reflexivity. Qed.

End MoreRuns.
